(** * A shallow embedding of [tts_server.py]

    The server is a Flask application with three routes: [POST /tts]
    (ElevenLabs), [POST /tts/sarvam] (Sarvam AI) and [GET /health].  The
    handlers are embedded as functions in a small monad that reads the
    process environment, the [.env] file and the upstream HTTP services from
    an explicit [World], logs every such access, and propagates Python
    exceptions. *)

From Stdlib Require Import ZArith String Ascii List DecimalString.
From stdpp Require Import gmap list.
Import ListNotations.
Open Scope Z_scope.

Set Warnings "-register-all".

(** ** Python data *)

(** A Python [str] is a sequence of Unicode code points, a [bytes] object a
    sequence of bytes. *)
Abbreviation pystr := (list N).
Abbreviation bytes := (list Byte.byte).

(** The string literals of the source are ASCII. *)
Definition py (s : string) : pystr := map N_of_ascii (list_ascii_of_string s).

(** The values that [json] decoding produces.  A [float] is kept as the
    dyadic number [m * 2^e]; the handlers only test it against zero and pass
    it on. *)
Inductive pyvalue : Type :=
| PNone
| PBool (b : bool)
| PInt (n : Z)
| PFloat (m e : Z)
| PStr (s : pystr)
| PList (l : list pyvalue)
| PDict (d : gmap pystr pyvalue).

(** An exception: its class and what [str(e)] returns. *)
Record exn : Type := Exn { exn_class : string; exn_str : pystr }.

Inductive Result (A : Type) : Type :=
| Ok (a : A)
| Raise (e : exn).
Arguments Ok {A} a.
Arguments Raise {A} e.

Definition type_name (v : pyvalue) : string :=
  match v with
  | PNone => "NoneType"
  | PBool _ => "bool"
  | PInt _ => "int"
  | PFloat _ _ => "float"
  | PStr _ => "str"
  | PList _ => "list"
  | PDict _ => "dict"
  end.

Definition TypeError (msg : string) : exn := Exn "TypeError" (py msg).
Definition IndexError (msg : string) : exn := Exn "IndexError" (py msg).
Definition KeyError (msg : string) : exn := Exn "KeyError" (py msg).
Definition AttributeError (msg : string) : exn := Exn "AttributeError" (py msg).
Definition FileNotFoundError (msg : string) : exn := Exn "FileNotFoundError" (py msg).

(** [bool(v)], the test behind [if v] and [not v]. *)
Definition truthy (v : pyvalue) : bool :=
  match v with
  | PNone => false
  | PBool b => b
  | PInt n => negb (n =? 0)
  | PFloat m _ => negb (m =? 0)
  | PStr s => negb (bool_decide (s = []))
  | PList l => match l with [] => false | _ => true end
  | PDict d => negb (bool_decide (d = ∅))
  end.

(** [v.get(key, default)]: only a [dict] has the method. *)
Definition py_get (v : pyvalue) (key : pystr) (dflt : pyvalue) : Result pyvalue :=
  match v with
  | PDict d => Ok (default dflt (d !! key))
  | _ => Raise (AttributeError ("'" ++ type_name v ++ "' object has no attribute 'get'"))
  end.

(** [str(n)] for an [int]. *)
Definition str_int (n : Z) : pystr := py (NilZero.string_of_int (Z.to_int n)).

(** [v[:n]].  A [str] and a [list] are sliced.  A [dict] takes the slice
    [slice(None, n, None)] for a key: up to Python 3.11 a slice cannot be
    hashed and the lookup raises a [TypeError]; from Python 3.12 on
    ([slices_hash]) it is hashed, is no key of a decoded JSON object, and the
    lookup raises a [KeyError], whose [str] is the [repr] of the key.  The
    other values are not subscriptable. *)
Definition py_slice_to (slices_hash : bool) (v : pyvalue) (n : nat) : Result pyvalue :=
  match v with
  | PStr s => Ok (PStr (firstn n s))
  | PList l => Ok (PList (firstn n l))
  | PDict _ =>
      if slices_hash
      then Raise (Exn "KeyError" (py "slice(None, " ++ str_int (Z.of_nat n) ++ py ", None)"))
      else Raise (TypeError "unhashable type: 'slice'")
  | _ => Raise (TypeError ("'" ++ type_name v ++ "' object is not subscriptable"))
  end.

(** [v[0]]. *)
Definition py_item0 (v : pyvalue) : Result pyvalue :=
  match v with
  | PList l =>
      match l with
      | x :: _ => Ok x
      | [] => Raise (IndexError "list index out of range")
      end
  | PStr s =>
      match s with
      | c :: _ => Ok (PStr [c])
      | [] => Raise (IndexError "string index out of range")
      end
  | PDict _ => Raise (KeyError "0")
  | _ => Raise (TypeError ("'" ++ type_name v ++ "' object is not subscriptable"))
  end.

(** Lookup in a [dict] whose keys are strings, by an arbitrary value:
    [d.get(k, default)].  A [list] or [dict] key cannot be hashed; every
    other value that is not a [str] differs from all the keys. *)
Definition dict_get (d : gmap pystr pystr) (k : pyvalue) (dflt : pystr) : Result pystr :=
  match k with
  | PStr s => Ok (default dflt (d !! s))
  | PList _ | PDict _ => Raise (TypeError ("unhashable type: '" ++ type_name k ++ "'"))
  | _ => Ok dflt
  end.

(** The values [hash] accepts, among those that [json] decoding produces. *)
Definition hashable (v : pyvalue) : bool :=
  match v with
  | PList _ | PDict _ => false
  | _ => true
  end.

(** [d[k]] for a literal key. *)
Definition dict_item (d : gmap pystr pystr) (k : string) : Result pystr :=
  match d !! py k with
  | Some x => Ok x
  | None => Raise (KeyError ("'" ++ k ++ "'"))
  end.

(** ** String methods used when the [.env] file is scanned *)

Fixpoint startswith (prefix line : pystr) : bool :=
  match prefix, line with
  | [], _ => true
  | p :: prefix', c :: line' => (p =? c)%N && startswith prefix' line'
  | _ :: _, [] => false
  end.

(** [line.split(sep, 1)] for a one-character separator. *)
Fixpoint split1 (sep : N) (line : pystr) : list pystr :=
  match line with
  | [] => [[]]
  | c :: rest =>
      if (c =? sep)%N then [[]; rest]
      else match split1 sep rest with
           | h :: t => (c :: h) :: t
           | [] => [[c]]
           end
  end.

(** [l[1]] on a list of strings. *)
Definition item1 (l : list pystr) : Result pystr :=
  match l with
  | _ :: x :: _ => Ok x
  | _ => Raise (IndexError "list index out of range")
  end.

(** The characters [str.strip()] removes: those for which [str.isspace()]
    holds. *)
Definition isspace (c : N) : bool :=
  ((9 <=? c) && (c <=? 13) || (28 <=? c) && (c <=? 32)
   || (c =? 133) || (c =? 160) || (c =? 5760)
   || (8192 <=? c) && (c <=? 8202)
   || (c =? 8232) || (c =? 8233) || (c =? 8239) || (c =? 8287)
   || (c =? 12288))%N.

Fixpoint lstrip (s : pystr) : pystr :=
  match s with
  | c :: rest => if isspace c then lstrip rest else s
  | [] => []
  end.

Definition rstrip (s : pystr) : pystr := rev (lstrip (rev s)).

Definition strip (s : pystr) : pystr := lstrip (rstrip s).

(** ** The world outside the process *)

(** What [requests.post] is called with, and what it answers. *)
Record upstream_request : Type := {
  req_url : pystr;
  req_headers : gmap pystr pystr;
  req_json : gmap pystr pyvalue;
  req_timeout : Z
}.

(** [response.json()] decodes the body or raises. *)
Record upstream_response : Type := {
  status_code : Z;
  content : bytes;
  response_json : Result pyvalue
}.

(** An open text file, as [for line in f] sees it: the lines that the
    iteration yields, each with its end of line, and then either the end of
    the file or the exception that reading on raises (a [UnicodeDecodeError]
    on bytes that cannot be decoded, an [OSError]). *)
Record text_file : Type := {
  file_lines : list pystr;
  file_error : option exn
}.

(** A file that is read to its end. *)
Definition readable (lines : list pystr) : text_file :=
  {| file_lines := lines; file_error := None |}.

(** [os.environ]; the file [.env] of the working directory ([open] returns
    the file or raises); the upstream services ([requests.post] returns a
    response or raises; a failing [import requests] is caught by the same
    [except] and counts as such a raise); and the interpreter that runs the
    process, as far as the handlers can tell: whether a slice can be hashed
    (Python 3.12 and later). *)
Record World : Type := {
  environ : gmap pystr pystr;
  dotenv : Result text_file;
  requests_post : upstream_request -> Result upstream_response;
  slices_hash : bool
}.

Inductive event : Type :=
| EnvironGet (name : pystr)
| Open (path : pystr)
| Post (req : upstream_request).

(** ** The monad of the handlers: read the world, log, raise *)

Definition IO (A : Type) : Type := World -> list event * Result A.

Definition ret {A} (a : A) : IO A := fun _ => ([], Ok a).

Definition bind {A B} (m : IO A) (k : A -> IO B) : IO B :=
  fun w =>
    match m w with
    | (t, Ok a) => let (t', r) := k a w in (t ++ t', r)
    | (t, Raise e) => (t, Raise e)
    end.

Definition lift {A} (r : Result A) : IO A := fun _ => ([], r).

(** [try: m except Exception as e: h e] *)
Definition try_except {A} (m : IO A) (h : exn -> IO A) : IO A :=
  fun w =>
    match m w with
    | (t, Ok a) => (t, Ok a)
    | (t, Raise e) => let (t', r) := h e w in (t ++ t', r)
    end.

(** [try: m except cls: h] *)
Definition try_except_class {A} (cls : string) (m : IO A) (h : IO A) : IO A :=
  fun w =>
    match m w with
    | (t, Ok a) => (t, Ok a)
    | (t, Raise e) =>
        if String.eqb (exn_class e) cls
        then let (t', r) := h w in (t ++ t', r)
        else (t, Raise e)
    end.

Declare Scope io_scope.
Delimit Scope io_scope with io.
Notation "x <- m ;; k" := (bind m (fun x => k))
  (at level 100, m at next level, right associativity) : io_scope.
Open Scope io_scope.

(** [os.environ.get(name, default)] *)
Definition environ_get (name dflt : pystr) : IO pystr :=
  fun w => ([EnvironGet name], Ok (default dflt (environ w !! name))).

(** [open('.env', 'r')] *)
Definition open_dotenv : IO text_file :=
  fun w => ([Open (py ".env")], dotenv w).

(** [v[:n]], on the interpreter of the process. *)
Definition slice_to (v : pyvalue) (n : nat) : IO pyvalue :=
  fun w => ([], py_slice_to (slices_hash w) v n).

(** [requests.post(url, headers=..., json=..., timeout=...)] *)
Definition post (req : upstream_request) : IO upstream_response :=
  fun w => ([Post req], requests_post w req).

(** ** Loading an API key (lines 20-31, and again lines 97-108)

    Both keys are loaded by the same code, up to the name of the variable:
    [os.environ.get(NAME, '')], and when that is empty the first line of
    [.env] that starts with [NAME=]. *)

(** The loop [for line in f]: the lines are read one by one up to the first
    that starts with [prefix] ([break]); when there is none, the loop ends
    with the file, or with the exception that reading on raises. *)
Fixpoint scan_lines (prefix : pystr) (lines : list pystr) (failure : option exn)
    (key : pystr) : Result pystr :=
  match lines with
  | [] =>
      match failure with
      | Some e => Raise e
      | None => Ok key
      end
  | line :: rest =>
      if startswith prefix line
      then match item1 (split1 61%N line) with
           | Ok v => Ok (strip v)
           | Raise e => Raise e
           end
      else scan_lines prefix rest failure key
  end.

Definition load_key (name : pystr) : IO pystr :=
  key <- environ_get name [];;
  if negb (truthy (PStr key))
  then try_except_class "FileNotFoundError"
         (f <- open_dotenv;;
          lift (scan_lines (name ++ py "=") (file_lines f) (file_error f) key))
         (ret key)
  else ret key.

(** The module-level code: it leaves the global [ELEVENLABS_API_KEY]. *)
Definition startup : IO pystr := load_key (py "VITE_ELEVENLABS_API_KEY").

Definition VOICES : gmap pystr pystr :=
  list_to_map
    [ (py "rachel", py "21m00Tcm4TlvDq8ikWAM");
      (py "adam", py "pNInz6obpgDQGcFmaJgB");
      (py "josh", py "TxGEqnHWrfWFTfGW9XjX");
      (py "bella", py "EXAVITQu4vr4xnSDxMaL") ].

(** ** Flask requests and responses *)

(** [request.json] returns the decoded body or raises. *)
Record Request : Type := { request_json : Result pyvalue }.

Inductive payload : Type :=
| Json (d : gmap pystr pyvalue)
| Binary (b : bytes).

Record Response : Type := {
  status : Z;
  mimetype : pystr;
  headers : gmap pystr pystr;
  body : payload
}.

(** [jsonify(d), code] *)
Definition jsonify (d : gmap pystr pyvalue) (code : Z) : Response :=
  {| status := code; mimetype := py "application/json"; headers := ∅; body := Json d |}.

(** [{'error': msg}] *)
Definition error_dict (msg : pystr) : gmap pystr pyvalue := {[ py "error" := PStr msg ]}.

(** [Response(data, mimetype=..., headers=...)], with the default status. *)
Definition make_response (data : bytes) (mt : pystr) (hs : gmap pystr pystr) : Response :=
  {| status := 200; mimetype := mt; headers := hs; body := Binary data |}.

(** ** The handlers *)

(** The arguments of the call [requests.post(...)] of [text_to_speech]. *)
Definition elevenlabs_call (key voice_id : pystr) (sliced : pyvalue) : upstream_request :=
  {| req_url := py "https://api.elevenlabs.io/v1/text-to-speech/" ++ voice_id;
     req_headers := list_to_map
       [ (py "Accept", py "audio/mpeg");
         (py "Content-Type", py "application/json");
         (py "xi-api-key", key) ];
     req_json := list_to_map
       [ (py "text", sliced);
         (py "model_id", PStr (py "eleven_monolingual_v1"));
         (py "voice_settings", PDict (list_to_map
            [ (py "stability", PFloat 1 (-1));
              (py "similarity_boost", PFloat 3 (-2)) ])) ];
     req_timeout := 30 |}.

Definition text_to_speech (ELEVENLABS_API_KEY : pystr) (request : Request) : IO Response :=
  data <- lift (request_json request);;
  text <- lift (py_get data (py "text") (PStr []));;
  voice <- lift (py_get data (py "voice") (PStr (py "rachel")));;
  if negb (truthy text)
  then ret (jsonify (error_dict (py "No text provided")) 400)
  else if negb (truthy (PStr ELEVENLABS_API_KEY))
  then ret (jsonify (error_dict (py "ElevenLabs API key not configured")) 500)
  else
    rachel <- lift (dict_item VOICES "rachel");;
    voice_id <- lift (dict_get VOICES voice rachel);;
    try_except
      (sliced <- slice_to text 1000;;
       response <- post (elevenlabs_call ELEVENLABS_API_KEY voice_id sliced);;
       if negb (status_code response =? 200)
       then ret (jsonify (error_dict (py "ElevenLabs error: " ++ str_int (status_code response))) 500)
       else ret (make_response (content response) (py "audio/mpeg")
                   {[ py "Content-Disposition" := py "inline" ]}))
      (fun e => ret (jsonify (error_dict (exn_str e)) 500)).

(** What [text_to_speech] answers after the call to the upstream. *)
Definition elevenlabs_answer (r : Result upstream_response) : Response :=
  match r with
  | Raise e => jsonify (error_dict (exn_str e)) 500
  | Ok response =>
      if negb (status_code response =? 200)
      then jsonify (error_dict (py "ElevenLabs error: " ++ str_int (status_code response))) 500
      else make_response (content response) (py "audio/mpeg")
             {[ py "Content-Disposition" := py "inline" ]}
  end.

(** The arguments of the call [requests.post(...)] of [sarvam_tts]. *)
Definition sarvam_call (key : pystr) (language sliced : pyvalue) : upstream_request :=
  {| req_url := py "https://api.sarvam.ai/text-to-speech";
     req_headers := list_to_map
       [ (py "Content-Type", py "application/json");
         (py "API-Subscription-Key", key) ];
     req_json := list_to_map
       [ (py "text", sliced);
         (py "target_language_code", language);
         (py "speaker", PStr (py "meera"));
         (py "pitch", PInt 0);
         (py "pace", PFloat 1 0);
         (py "loudness", PFloat 1 0) ];
     req_timeout := 30 |}.

Section Handlers.

(** [base64.b64decode], applied to whatever the upstream sent as the first
    audio item: the decoded bytes, or the exception it raises. *)
Variable b64decode : pyvalue -> Result bytes.

Definition sarvam_tts (request : Request) : IO Response :=
  SARVAM_API_KEY <- load_key (py "VITE_SARVAM_API_KEY");;
  if negb (truthy (PStr SARVAM_API_KEY))
  then ret (jsonify (error_dict (py "Sarvam API key not configured")) 500)
  else
    data <- lift (request_json request);;
    text <- lift (py_get data (py "text") (PStr []));;
    language <- lift (py_get data (py "language") (PStr (py "en-IN")));;
    if negb (truthy text)
    then ret (jsonify (error_dict (py "No text provided")) 400)
    else
      try_except
        (sliced <- slice_to text 500;;
         response <- post (sarvam_call SARVAM_API_KEY language sliced);;
         if negb (status_code response =? 200)
         then ret (jsonify (error_dict (py "Sarvam error: " ++ str_int (status_code response))) 500)
         else
           envelope <- lift (response_json response);;
           audios <- lift (py_get envelope (py "audios") (PList [PDict ∅]));;
           audio_data <- lift (py_item0 audios);;
           if truthy audio_data
           then
             audio_bytes <- lift (b64decode audio_data);;
             ret (make_response audio_bytes (py "audio/wav") ∅)
           else ret (jsonify (error_dict (py "No audio returned")) 500))
        (fun e => ret (jsonify (error_dict (exn_str e)) 500)).

(** What [sarvam_tts] answers once the upstream has answered with status
    200: the first audio item of the envelope, decoded. *)
Definition sarvam_decode (response : upstream_response) : Result Response :=
  match response_json response with
  | Raise e => Raise e
  | Ok envelope =>
      match py_get envelope (py "audios") (PList [PDict ∅]) with
      | Raise e => Raise e
      | Ok audios =>
          match py_item0 audios with
          | Raise e => Raise e
          | Ok audio_data =>
              if truthy audio_data
              then match b64decode audio_data with
                   | Raise e => Raise e
                   | Ok audio_bytes => Ok (make_response audio_bytes (py "audio/wav") ∅)
                   end
              else Ok (jsonify (error_dict (py "No audio returned")) 500)
          end
      end
  end.

(** What [sarvam_tts] answers after the call to the upstream. *)
Definition sarvam_answer (r : Result upstream_response) : Response :=
  match r with
  | Raise e => jsonify (error_dict (exn_str e)) 500
  | Ok response =>
      if negb (status_code response =? 200)
      then jsonify (error_dict (py "Sarvam error: " ++ str_int (status_code response))) 500
      else match sarvam_decode response with
           | Ok resp => resp
           | Raise e => jsonify (error_dict (exn_str e)) 500
           end
  end.

Definition health (ELEVENLABS_API_KEY : pystr) : IO Response :=
  ret (jsonify (list_to_map
         [ (py "status", PStr (py "ok"));
           (py "elevenlabs_configured", PBool (truthy (PStr ELEVENLABS_API_KEY))) ]) 200).

(** The routes of the application, and the dispatch of a request. *)
Inductive route : Type := POST_tts | POST_tts_sarvam | GET_health.

Definition handle (ELEVENLABS_API_KEY : pystr) (r : route) (request : Request) : IO Response :=
  match r with
  | POST_tts => text_to_speech ELEVENLABS_API_KEY request
  | POST_tts_sarvam => sarvam_tts request
  | GET_health => health ELEVENLABS_API_KEY
  end.

End Handlers.

(** ** Derived notions used in the statements *)

(** [.env] is absent, or is opened and read to its end without an error. *)
Definition dotenv_readable (w : World) : Prop :=
  match dotenv w with
  | Ok f => file_error f = None
  | Raise e => exn_class e = "FileNotFoundError"%string
  end.

(** [VOICES['rachel']] *)
Definition rachel_id : pystr := py "21m00Tcm4TlvDq8ikWAM".

(** The fields of a request body, with the defaults of the handlers. *)
Definition text_of (d : gmap pystr pyvalue) : pyvalue := default (PStr []) (d !! py "text").
Definition voice_of (d : gmap pystr pyvalue) : pyvalue := default (PStr (py "rachel")) (d !! py "voice").
Definition language_of (d : gmap pystr pyvalue) : pyvalue := default (PStr (py "en-IN")) (d !! py "language").

(** A request whose body decodes to the JSON object [d]. *)
Definition json_request (d : gmap pystr pyvalue) : Request := {| request_json := Ok (PDict d) |}.

(** The names of the two environment variables. *)
Definition ELEVENLABS_NAME : pystr := py "VITE_ELEVENLABS_API_KEY".
Definition SARVAM_NAME : pystr := py "VITE_SARVAM_API_KEY".

(** An upstream that answers every call with the same response. *)
Definition answering (code : Z) (data : bytes) (j : Result pyvalue)
  : upstream_request -> Result upstream_response :=
  fun _ => Ok {| status_code := code; content := data; response_json := j |}.

(** [response.json()] on a body that is not JSON. *)
Definition not_json : Result pyvalue := Raise (Exn "JSONDecodeError" (py "Expecting value")).

(** No variable in the environment and no [.env] file. *)
Definition world_bare (up : upstream_request -> Result upstream_response) : World :=
  {| environ := ∅;
     dotenv := Raise (FileNotFoundError "[Errno 2] No such file or directory: '.env'");
     requests_post := up;
     slices_hash := true |}.

(** Both keys in the environment. *)
Definition world_env (up : upstream_request -> Result upstream_response) : World :=
  {| environ := list_to_map [ (ELEVENLABS_NAME, py "el-key"); (SARVAM_NAME, py "sv-key") ];
     dotenv := Raise (FileNotFoundError "[Errno 2] No such file or directory: '.env'");
     requests_post := up;
     slices_hash := true |}.

(** The Sarvam variable set, but empty, and a [.env] file with both keys. *)
Definition world_file (up : upstream_request -> Result upstream_response) : World :=
  {| environ := {[ SARVAM_NAME := [] ]};
     dotenv := Ok (readable
                 [ py "# keys" ++ [10%N];
                   py "VITE_ELEVENLABS_API_KEY=el-file" ++ [10%N];
                   py "VITE_SARVAM_API_KEY= sv-file " ++ [10%N] ]);
     requests_post := up;
     slices_hash := true |}.

(** A decoder that rejects every input. *)
Definition b64decode_rejecting : pyvalue -> Result bytes :=
  fun _ => Raise (Exn "binascii.Error" (py "Incorrect padding")).

(** C8 as the specification has it: a variable that is set in the
    environment decides the key, and the file is not used. *)
Definition environ_set_shadows_file : Prop :=
  forall (name v : pystr) (w : World),
    environ w !! name = Some v ->
    load_key name w = ([EnvironGet name], Ok v).

(** The body has no [text], or an empty one. *)
Definition no_text (d : gmap pystr pyvalue) : Prop :=
  d !! py "text" = None \/ d !! py "text" = Some (PStr []).

(** C1 as the specification has it: a body without text is answered with
    400 by both synthesis routes, whatever the keys are. *)
Definition no_text_always_400 : Prop :=
  forall (b64decode : pyvalue -> Result bytes) (KEY : pystr) (r : route)
         (d : gmap pystr pyvalue) (w : World),
    r <> GET_health -> no_text d ->
    exists t msg,
      handle b64decode KEY r (json_request d) w = (t, Ok (jsonify (error_dict msg) 400)).

(** What a synthesis route may answer: audio, or a JSON error with status
    400 or 500. *)
Definition audio_or_json_error (resp : Response) : Prop :=
  (exists data mt hs, resp = make_response data mt hs)
  \/ (exists msg code, (code = 400 \/ code = 500) /\ resp = jsonify (error_dict msg) code).

(** C4 as the specification has it: whatever the request, a synthesis route
    returns a response, and a failure is a JSON error body. *)
Definition every_failure_is_json : Prop :=
  forall (b64decode : pyvalue -> Result bytes) (KEY : pystr) (r : route)
         (request : Request) (w : World),
    r <> GET_health ->
    exists t resp,
      handle b64decode KEY r request w = (t, Ok resp) /\ audio_or_json_error resp.

(** The event is an upstream call. *)
Definition is_post (ev : event) : Prop := exists q, ev = Post q.

(** C2 as the specification has it: after startup (in the world [w0]) no
    handler reads the environment or [.env], so that the only events of a
    request (in the world [w]) are upstream calls, and these carry the keys
    as they were resolved at startup. *)
Definition credentials_resolved_once : Prop :=
  forall (b64decode : pyvalue -> Result bytes) (w0 w : World) (t0 : list event)
         (KEY : pystr) (r : route) (request : Request),
    startup w0 = (t0, Ok KEY) ->
    Forall is_post (fst (handle b64decode KEY r request w))
    /\ (forall q, In (Post q) (fst (handle b64decode KEY r request w)) ->
         (r = POST_tts -> req_headers q !! py "xi-api-key" = Some KEY)
         /\ (r = POST_tts_sarvam ->
             exists t key0, load_key SARVAM_NAME w0 = (t, Ok key0)
                            /\ req_headers q !! py "API-Subscription-Key" = Some key0)).

(** C6 as the specification has it: every upstream status from 200 to 299
    leads to the audio response. *)
Definition upstream_2xx_succeeds : Prop :=
  forall (KEY : pystr) (d : gmap pystr pyvalue) (w : World)
         (q : upstream_request) (response : upstream_response),
    In (Post q) (fst (text_to_speech KEY (json_request d) w)) ->
    requests_post w q = Ok response ->
    200 <= status_code response < 300 ->
    snd (text_to_speech KEY (json_request d) w)
    = Ok (make_response (content response) (py "audio/mpeg")
            {[ py "Content-Disposition" := py "inline" ]}).

(** C10 as stated: a truthy [text] that is not a string makes [POST /tts]
    answer 500 with a JSON error. *)
Definition non_string_text_500 : Prop :=
  forall (KEY : pystr) (d : gmap pystr pyvalue) (w : World) (v : pyvalue),
    d !! py "text" = Some v -> truthy v = true -> (forall s, v <> PStr s) ->
    exists t msg,
      text_to_speech KEY (json_request d) w = (t, Ok (jsonify (error_dict msg) 500)).

(** ** Further notions, for the properties beyond the claims *)

(** The number of upstream calls among the events of a request. *)
Definition count_posts (t : list event) : nat :=
  length (List.filter (fun ev => match ev with Post _ => true | _ => false end) t).

(** An upstream that cannot be reached: [requests.post] raises. *)
Definition timing_out : upstream_request -> Result upstream_response :=
  fun _ => Raise (Exn "ReadTimeout" (py "Read timed out. (read timeout=30)")).

(** A decoder that accepts every string and yields no bytes. *)
Definition b64decode_empty : pyvalue -> Result bytes :=
  fun v => match v with
           | PStr _ => Ok []
           | _ => Raise (TypeError "argument should be a bytes-like object or ASCII string")
           end.

(** A [.env] file that has the ElevenLabs key only, twice, and nothing in
    the environment. *)
Definition world_file_elevenlabs (up : upstream_request -> Result upstream_response) : World :=
  {| environ := ∅;
     dotenv := Ok (readable
                 [ py "VITE_ELEVENLABS_API_KEY=   " ++ [10%N];
                   py "VITE_ELEVENLABS_API_KEY=el-second" ++ [10%N] ]);
     requests_post := up;
     slices_hash := true |}.

(** A [.env] file that opens, yields one line and then cannot be decoded,
    and nothing in the environment. *)
Definition world_undecodable (up : upstream_request -> Result upstream_response) : World :=
  {| environ := ∅;
     dotenv := Ok {| file_lines := [ py "# keys" ++ [10%N] ];
                     file_error := Some (Exn "UnicodeDecodeError"
                       (py "'utf-8' codec can't decode byte 0xff in position 7: invalid start byte")) |};
     requests_post := up;
     slices_hash := true |}.

(** The same world under an interpreter up to Python 3.11. *)
Definition before_python_3_12 (w : World) : World :=
  {| environ := environ w;
     dotenv := dotenv w;
     requests_post := requests_post w;
     slices_hash := false |}.

(** ** The answers of the synthesis routes, failure by failure *)

(** [response.json().get('audios', [{}])[0]] *)
Definition first_audio_item (response : upstream_response) : Result pyvalue :=
  match response_json response with
  | Raise e => Raise e
  | Ok envelope =>
      match py_get envelope (py "audios") (PList [PDict ∅]) with
      | Raise e => Raise e
      | Ok audios => py_item0 audios
      end
  end.

(** The upstream call of [POST /tts] for the body [d], once the text and key
    checks, the voice lookup and the slice have passed. *)
Definition tts_calls (KEY : pystr) (d : gmap pystr pyvalue) (w : World)
    (q : upstream_request) : Prop :=
  truthy (text_of d) = true /\ KEY <> []
  /\ exists voice_id sliced,
       dict_get VOICES (voice_of d) rachel_id = Ok voice_id
       /\ py_slice_to (slices_hash w) (text_of d) 1000 = Ok sliced
       /\ q = elevenlabs_call KEY voice_id sliced.

(** The answers of [POST /tts] to a body [d] that is a JSON object, with
    the events of the request: each failure with its status and message,
    and the audio. *)
Inductive tts_outcome (KEY : pystr) (d : gmap pystr pyvalue) (w : World)
  : list event -> Response -> Prop :=
| tts_no_text :
    truthy (text_of d) = false ->
    tts_outcome KEY d w [] (jsonify (error_dict (py "No text provided")) 400)
| tts_no_key :
    truthy (text_of d) = true -> KEY = [] ->
    tts_outcome KEY d w []
      (jsonify (error_dict (py "ElevenLabs API key not configured")) 500)
| tts_slice_raises (e : exn) :
    truthy (text_of d) = true -> KEY <> [] -> hashable (voice_of d) = true ->
    py_slice_to (slices_hash w) (text_of d) 1000 = Raise e ->
    tts_outcome KEY d w [] (jsonify (error_dict (exn_str e)) 500)
| tts_post_raises (q : upstream_request) (e : exn) :
    tts_calls KEY d w q -> requests_post w q = Raise e ->
    tts_outcome KEY d w [Post q] (jsonify (error_dict (exn_str e)) 500)
| tts_upstream_status (q : upstream_request) (response : upstream_response) :
    tts_calls KEY d w q -> requests_post w q = Ok response ->
    status_code response <> 200 ->
    tts_outcome KEY d w [Post q]
      (jsonify (error_dict (py "ElevenLabs error: " ++ str_int (status_code response))) 500)
| tts_audio (q : upstream_request) (response : upstream_response) :
    tts_calls KEY d w q -> requests_post w q = Ok response ->
    status_code response = 200 ->
    tts_outcome KEY d w [Post q]
      (make_response (content response) (py "audio/mpeg")
         {[ py "Content-Disposition" := py "inline" ]}).

(** The upstream call of [POST /tts/sarvam] for the body [d] and the key it
    has loaded, once the key and text checks and the slice have passed. *)
Definition sarvam_calls (key : pystr) (d : gmap pystr pyvalue) (w : World)
    (q : upstream_request) : Prop :=
  key <> [] /\ truthy (text_of d) = true
  /\ exists sliced,
       py_slice_to (slices_hash w) (text_of d) 500 = Ok sliced
       /\ q = sarvam_call key (language_of d) sliced.

(** The answers of [POST /tts/sarvam] to a body [d] that is a JSON object,
    with the key it has loaded and the events that follow the loading. *)
Inductive sarvam_outcome (b64decode : pyvalue -> Result bytes) (key : pystr)
    (d : gmap pystr pyvalue) (w : World) : list event -> Response -> Prop :=
| sarvam_no_key :
    key = [] ->
    sarvam_outcome b64decode key d w []
      (jsonify (error_dict (py "Sarvam API key not configured")) 500)
| sarvam_no_text :
    key <> [] -> truthy (text_of d) = false ->
    sarvam_outcome b64decode key d w [] (jsonify (error_dict (py "No text provided")) 400)
| sarvam_slice_raises (e : exn) :
    key <> [] -> truthy (text_of d) = true ->
    py_slice_to (slices_hash w) (text_of d) 500 = Raise e ->
    sarvam_outcome b64decode key d w [] (jsonify (error_dict (exn_str e)) 500)
| sarvam_post_raises (q : upstream_request) (e : exn) :
    sarvam_calls key d w q -> requests_post w q = Raise e ->
    sarvam_outcome b64decode key d w [Post q] (jsonify (error_dict (exn_str e)) 500)
| sarvam_upstream_status (q : upstream_request) (response : upstream_response) :
    sarvam_calls key d w q -> requests_post w q = Ok response ->
    status_code response <> 200 ->
    sarvam_outcome b64decode key d w [Post q]
      (jsonify (error_dict (py "Sarvam error: " ++ str_int (status_code response))) 500)
| sarvam_envelope_raises (q : upstream_request) (response : upstream_response) (e : exn) :
    sarvam_calls key d w q -> requests_post w q = Ok response ->
    status_code response = 200 ->
    first_audio_item response = Raise e ->
    sarvam_outcome b64decode key d w [Post q] (jsonify (error_dict (exn_str e)) 500)
| sarvam_no_audio (q : upstream_request) (response : upstream_response) (item : pyvalue) :
    sarvam_calls key d w q -> requests_post w q = Ok response ->
    status_code response = 200 ->
    first_audio_item response = Ok item -> truthy item = false ->
    sarvam_outcome b64decode key d w [Post q]
      (jsonify (error_dict (py "No audio returned")) 500)
| sarvam_b64decode_raises (q : upstream_request) (response : upstream_response)
    (item : pyvalue) (e : exn) :
    sarvam_calls key d w q -> requests_post w q = Ok response ->
    status_code response = 200 ->
    first_audio_item response = Ok item -> truthy item = true ->
    b64decode item = Raise e ->
    sarvam_outcome b64decode key d w [Post q] (jsonify (error_dict (exn_str e)) 500)
| sarvam_audio (q : upstream_request) (response : upstream_response)
    (item : pyvalue) (audio_bytes : bytes) :
    sarvam_calls key d w q -> requests_post w q = Ok response ->
    status_code response = 200 ->
    first_audio_item response = Ok item -> truthy item = true ->
    b64decode item = Ok audio_bytes ->
    sarvam_outcome b64decode key d w [Post q]
      (make_response audio_bytes (py "audio/wav") ∅).

(** * Properties *)

(** ** The monad *)

Lemma bind_lift_Ok {A B} (a : A) (k : A -> IO B) (w : World) :
  bind (lift (Ok a)) k w = k a w.
Proof. unfold bind, lift. destruct (k a w) as [t r]. reflexivity. Qed.

Lemma bind_lift_Raise {A B} (e : exn) (k : A -> IO B) (w : World) :
  bind (lift (Raise e)) k w = ([], Raise e).
Proof. reflexivity. Qed.

Lemma bind_slice_to {B} (v : pyvalue) (n : nat) (k : pyvalue -> IO B) (w : World) :
  bind (slice_to v n) k w = bind (lift (py_slice_to (slices_hash w) v n)) k w.
Proof. reflexivity. Qed.

Lemma bind_seq {A B} (m : IO A) (k : A -> IO B) (w : World)
    (t t' : list event) (a : A) (r : Result B) :
  m w = (t, Ok a) -> k a w = (t', r) -> bind m k w = (t ++ t', r).
Proof. intros H H'. unfold bind. rewrite H, H'. reflexivity. Qed.

Lemma bind_run_Raise {A B} (m : IO A) (k : A -> IO B) (w : World) (t : list event) (e : exn) :
  m w = (t, Raise e) -> bind m k w = (t, Raise e).
Proof. intros H. unfold bind. rewrite H. reflexivity. Qed.

Lemma truthy_str (s : pystr) : truthy (PStr s) = false <-> s = [].
Proof.
  unfold truthy. case_bool_decide; simpl; split; congruence.
Qed.

Lemma truthy_str_true (s : pystr) : truthy (PStr s) = true <-> s <> [].
Proof.
  unfold truthy. case_bool_decide; simpl; split; congruence.
Qed.

(** ** Scanning the lines of [.env] *)

Lemma startswith_app (p s : pystr) : startswith p (p ++ s) = true.
Proof.
  induction p as [|c p IH]; simpl; [reflexivity|].
  rewrite N.eqb_refl. exact IH.
Qed.

Lemma startswith_inv (p l : pystr) :
  startswith p l = true -> exists s, l = p ++ s.
Proof.
  revert l. induction p as [|c p IH]; intros l H.
  - exists l. reflexivity.
  - destruct l as [|d l]; simpl in H; [discriminate|].
    apply andb_prop in H as [Hc Hp]. apply N.eqb_eq in Hc. subst d.
    destruct (IH l Hp) as [s ->]. exists s. reflexivity.
Qed.

(** [split] cuts at the first separator. *)
Lemma split1_first (sep : N) (a b : pystr) :
  ~ In sep a -> split1 sep (a ++ sep :: b) = [a; b].
Proof.
  induction a as [|c a IH]; intros Hn; simpl.
  - rewrite N.eqb_refl. reflexivity.
  - destruct (N.eqb_spec c sep) as [->|_].
    + exfalso. apply Hn. left. reflexivity.
    + rewrite IH; [reflexivity|]. intros Hin. apply Hn. right. exact Hin.
Qed.

Lemma split1_two (sep : N) (l : pystr) :
  In sep l -> exists a b, split1 sep l = [a; b].
Proof.
  induction l as [|c l IH]; intros Hin; [destruct Hin|].
  simpl. destruct (N.eqb_spec c sep) as [->|Hne].
  - eauto.
  - destruct Hin as [->|Hin]; [congruence|].
    destruct (IH Hin) as (a & b & ->). eauto.
Qed.

Lemma scan_lines_cons (prefix line : pystr) (rest : list pystr)
    (failure : option exn) (key : pystr) :
  scan_lines prefix (line :: rest) failure key
  = if startswith prefix line
    then match item1 (split1 61%N line) with
         | Ok v => Ok (strip v)
         | Raise e => Raise e
         end
    else scan_lines prefix rest failure key.
Proof. reflexivity. Qed.

Lemma scan_lines_none (prefix : pystr) (lines : list pystr)
    (failure : option exn) (key : pystr) :
  Forall (fun l => startswith prefix l = false) lines ->
  scan_lines prefix lines failure key
  = match failure with Some e => Raise e | None => Ok key end.
Proof.
  induction 1 as [|line rest Hl _ IH]; [reflexivity|].
  rewrite scan_lines_cons, Hl. exact IH.
Qed.

Lemma scan_lines_found (name value : pystr) (pre post : list pystr)
    (failure : option exn) (key : pystr) :
  ~ In 61%N name ->
  Forall (fun l => startswith (name ++ py "=") l = false) pre ->
  scan_lines (name ++ py "=") (pre ++ (name ++ py "=" ++ value) :: post) failure key
  = Ok (strip value).
Proof.
  intros Hn Hpre. induction Hpre as [|line rest Hl _ IH].
  - rewrite app_nil_l, scan_lines_cons.
    rewrite (app_assoc name (py "=") value), startswith_app.
    rewrite <- app_assoc. change (py "=" ++ value) with (61%N :: value).
    rewrite split1_first by exact Hn. reflexivity.
  - rewrite <- app_comm_cons, scan_lines_cons, Hl. exact IH.
Qed.

(** The body of the loop never raises, since a line that starts with
    [NAME=] contains the separator: the loop raises only what reading the
    file raises, after lines of which none starts with [NAME=]. *)
Lemma scan_lines_cases (name : pystr) (lines : list pystr)
    (failure : option exn) (key : pystr) :
  (exists k, scan_lines (name ++ py "=") lines failure key = Ok k)
  \/ (exists e, failure = Some e
                /\ Forall (fun l => startswith (name ++ py "=") l = false) lines
                /\ scan_lines (name ++ py "=") lines failure key = Raise e).
Proof.
  induction lines as [|line rest IH].
  - destruct failure as [e|]; [right|left]; simpl; eauto.
  - rewrite scan_lines_cons.
    destruct (startswith (name ++ py "=") line) eqn:Hs.
    + left. apply startswith_inv in Hs as [s ->].
      destruct (split1_two 61%N ((name ++ py "=") ++ s)) as (a & b & ->).
      * apply in_or_app. left. apply in_or_app. right. left. reflexivity.
      * simpl. eauto.
    + destruct IH as [IH|(e & He & Hall & IH)]; [left; exact IH|].
      right. exists e. split; [exact He|]. split; [|exact IH].
      constructor; assumption.
Qed.

(** ** Loading a key *)

Lemma load_key_environ (name v : pystr) (w : World) :
  environ w !! name = Some v -> v <> [] ->
  load_key name w = ([EnvironGet name], Ok v).
Proof.
  intros Hv Hne. unfold load_key, bind, environ_get. rewrite Hv.
  change (default [] (Some v)) with v.
  apply truthy_str_true in Hne. rewrite Hne. reflexivity.
Qed.

(** With the variable unset or empty and a [.env] that opens, the key is
    what the loop gives; a [FileNotFoundError] out of the loop would be
    caught like the one of [open]. *)
Lemma load_key_file (name : pystr) (f : text_file) (w : World) :
  default [] (environ w !! name) = [] ->
  dotenv w = Ok f ->
  load_key name w
  = ([EnvironGet name; Open (py ".env")],
     match scan_lines (name ++ py "=") (file_lines f) (file_error f) [] with
     | Ok k => Ok k
     | Raise e =>
         if String.eqb (exn_class e) "FileNotFoundError" then Ok [] else Raise e
     end).
Proof.
  intros He Hf. unfold load_key, bind, environ_get. rewrite He.
  assert (Ht : truthy (PStr []) = false) by reflexivity. rewrite Ht.
  cbn [negb]. unfold try_except_class, bind, open_dotenv, lift. rewrite Hf.
  destruct (scan_lines _ _ _ _) as [k|e]; [reflexivity|].
  destruct (String.eqb (exn_class e) "FileNotFoundError"); reflexivity.
Qed.

Lemma load_key_file_found (name value : pystr) (pre post : list pystr)
    (f : text_file) (w : World) :
  ~ In 61%N name ->
  default [] (environ w !! name) = [] ->
  dotenv w = Ok f ->
  file_lines f = pre ++ (name ++ py "=" ++ value) :: post ->
  Forall (fun l => startswith (name ++ py "=") l = false) pre ->
  load_key name w = ([EnvironGet name; Open (py ".env")], Ok (strip value)).
Proof.
  intros Hn He Hf Hlines Hpre. rewrite (load_key_file name f w He Hf), Hlines.
  rewrite (scan_lines_found name value pre post _ _ Hn Hpre). reflexivity.
Qed.

Lemma load_key_file_none (name : pystr) (f : text_file) (w : World) :
  default [] (environ w !! name) = [] ->
  dotenv w = Ok f ->
  Forall (fun l => startswith (name ++ py "=") l = false) (file_lines f) ->
  file_error f = None ->
  load_key name w = ([EnvironGet name; Open (py ".env")], Ok []).
Proof.
  intros He Hf Hnone Herr. rewrite (load_key_file name f w He Hf).
  rewrite (scan_lines_none _ _ _ _ Hnone), Herr. reflexivity.
Qed.

(** Reading on fails before a line [NAME=...] is met: the exception leaves
    the loading, outside every [try] of the handlers. *)
Lemma load_key_file_fails (name : pystr) (f : text_file) (e : exn) (w : World) :
  default [] (environ w !! name) = [] ->
  dotenv w = Ok f ->
  Forall (fun l => startswith (name ++ py "=") l = false) (file_lines f) ->
  file_error f = Some e -> exn_class e <> "FileNotFoundError"%string ->
  load_key name w = ([EnvironGet name; Open (py ".env")], Raise e).
Proof.
  intros He Hf Hnone Herr Hc. rewrite (load_key_file name f w He Hf).
  rewrite (scan_lines_none _ _ _ _ Hnone), Herr.
  apply String.eqb_neq in Hc. rewrite Hc. reflexivity.
Qed.

Lemma load_key_absent (name : pystr) (e : exn) (w : World) :
  default [] (environ w !! name) = [] ->
  dotenv w = Raise e -> exn_class e = "FileNotFoundError"%string ->
  load_key name w = ([EnvironGet name; Open (py ".env")], Ok []).
Proof.
  intros He Hf Hc. unfold load_key, bind, environ_get. rewrite He.
  assert (Ht : truthy (PStr []) = false) by reflexivity. rewrite Ht.
  cbn [negb]. unfold try_except_class, bind, open_dotenv, lift. rewrite Hf, Hc.
  reflexivity.
Qed.

Lemma load_key_unreadable (name : pystr) (e : exn) (w : World) :
  default [] (environ w !! name) = [] ->
  dotenv w = Raise e -> exn_class e <> "FileNotFoundError"%string ->
  load_key name w = ([EnvironGet name; Open (py ".env")], Raise e).
Proof.
  intros He Hf Hc. unfold load_key, bind, environ_get. rewrite He.
  assert (Ht : truthy (PStr []) = false) by reflexivity. rewrite Ht.
  cbn [negb]. unfold try_except_class, bind, open_dotenv, lift. rewrite Hf.
  apply String.eqb_neq in Hc. rewrite Hc. reflexivity.
Qed.

(** Loading a key logs the read of the environment, then at most the
    opening of [.env], and it does not fail when [.env] is absent or read to
    its end. *)
Lemma load_key_cases (name : pystr) (w : World) :
  (exists v, v <> [] /\ load_key name w = ([EnvironGet name], Ok v))
  \/ (exists r, load_key name w = ([EnvironGet name; Open (py ".env")], r)
                /\ (dotenv_readable w -> exists k, r = Ok k)).
Proof.
  destruct (decide (default [] (environ w !! name) = [])) as [Henv|Henv].
  - right. destruct (dotenv w) as [f|e] eqn:Hf.
    + eexists. split; [apply (load_key_file name f w Henv Hf)|].
      unfold dotenv_readable. rewrite Hf. intros Herr.
      destruct (scan_lines_cases name (file_lines f) (file_error f) [])
        as [[k ->]|(e & He & _)]; [eauto|congruence].
    + destruct (decide (exn_class e = "FileNotFoundError"%string)) as [Hc|Hc].
      * eexists. split; [apply (load_key_absent name e w Henv Hf Hc)|]. eauto.
      * eexists. split; [apply (load_key_unreadable name e w Henv Hf Hc)|].
        unfold dotenv_readable. rewrite Hf. intros Hc'. contradiction.
  - left. destruct (environ w !! name) as [v|] eqn:Hv; [|contradiction].
    exists v. split; [exact Henv|]. apply load_key_environ; assumption.
Qed.

(** ** The handlers in explicit form *)

Lemma VOICES_rachel : dict_item VOICES "rachel" = Ok rachel_id.
Proof. vm_compute. reflexivity. Qed.

Lemma text_to_speech_run (KEY : pystr) (d : gmap pystr pyvalue) (w : World) :
  text_to_speech KEY {| request_json := Ok (PDict d) |} w
  = let text := default (PStr []) (d !! py "text") in
    let voice := default (PStr (py "rachel")) (d !! py "voice") in
    if negb (truthy text)
    then ([], Ok (jsonify (error_dict (py "No text provided")) 400))
    else if negb (truthy (PStr KEY))
    then ([], Ok (jsonify (error_dict (py "ElevenLabs API key not configured")) 500))
    else match dict_get VOICES voice rachel_id with
         | Raise e => ([], Raise e)
         | Ok voice_id =>
             match py_slice_to (slices_hash w) text 1000 with
             | Raise e => ([], Ok (jsonify (error_dict (exn_str e)) 500))
             | Ok sliced =>
                 ([Post (elevenlabs_call KEY voice_id sliced)],
                  Ok (elevenlabs_answer (requests_post w (elevenlabs_call KEY voice_id sliced))))
             end
         end.
Proof.
  unfold text_to_speech. cbn [request_json]. unfold py_get.
  rewrite !bind_lift_Ok. cbv zeta.
  destruct (negb (truthy (default (PStr []) (d !! py "text")))); [reflexivity|].
  destruct (negb (truthy (PStr KEY))); [reflexivity|].
  rewrite VOICES_rachel, bind_lift_Ok.
  destruct (dict_get VOICES _ rachel_id) as [voice_id|e];
    [rewrite bind_lift_Ok|rewrite bind_lift_Raise; reflexivity].
  unfold try_except. rewrite bind_slice_to.
  destruct (py_slice_to _ _ 1000) as [sliced|e];
    [rewrite bind_lift_Ok|rewrite bind_lift_Raise; reflexivity].
  unfold bind, post, elevenlabs_answer.
  destruct (requests_post w _) as [response|e]; [|reflexivity].
  destruct (negb (status_code response =? 200)); reflexivity.
Qed.

(** A body that is not a JSON object has no [get]: the exception is raised
    before the [try] and leaves the handler. *)
Lemma text_to_speech_not_dict (KEY : pystr) (v : pyvalue) (w : World) :
  (forall d, v <> PDict d) ->
  text_to_speech KEY {| request_json := Ok v |} w
  = ([], Raise (AttributeError ("'" ++ type_name v ++ "' object has no attribute 'get'"))).
Proof.
  intros Hv. unfold text_to_speech. cbn [request_json]. rewrite bind_lift_Ok.
  destruct v; try reflexivity. exfalso. eapply Hv. reflexivity.
Qed.

(** So does whatever [request.json] raises on a body it cannot decode. *)
Lemma text_to_speech_bad_body (KEY : pystr) (e : exn) (w : World) :
  text_to_speech KEY {| request_json := Raise e |} w = ([], Raise e).
Proof. reflexivity. Qed.

Section SarvamRun.

Variable b64decode : pyvalue -> Result bytes.

Lemma sarvam_tts_run (d : gmap pystr pyvalue) (w : World) (t0 : list event) (key : pystr) :
  load_key (py "VITE_SARVAM_API_KEY") w = (t0, Ok key) ->
  sarvam_tts b64decode {| request_json := Ok (PDict d) |} w
  = let text := default (PStr []) (d !! py "text") in
    let language := default (PStr (py "en-IN")) (d !! py "language") in
    if negb (truthy (PStr key))
    then (t0, Ok (jsonify (error_dict (py "Sarvam API key not configured")) 500))
    else if negb (truthy text)
    then (t0, Ok (jsonify (error_dict (py "No text provided")) 400))
    else match py_slice_to (slices_hash w) text 500 with
         | Raise e => (t0, Ok (jsonify (error_dict (exn_str e)) 500))
         | Ok sliced =>
             (t0 ++ [Post (sarvam_call key language sliced)],
              Ok (sarvam_answer b64decode (requests_post w (sarvam_call key language sliced))))
         end.
Proof.
  intros Hk. unfold sarvam_tts. cbv zeta.
  destruct (negb (truthy (PStr key))) eqn:Hc.
  { rewrite <- (app_nil_r t0). apply (bind_seq _ _ _ _ _ _ _ Hk).
    rewrite Hc. reflexivity. }
  destruct (negb (truthy (default (PStr []) (d !! py "text")))) eqn:Ht.
  { rewrite <- (app_nil_r t0). apply (bind_seq _ _ _ _ _ _ _ Hk).
    rewrite Hc. cbn [request_json]. unfold py_get. rewrite !bind_lift_Ok, Ht.
    reflexivity. }
  destruct (py_slice_to _ _ 500) as [sliced|e] eqn:Hs.
  2:{ rewrite <- (app_nil_r t0). apply (bind_seq _ _ _ _ _ _ _ Hk).
      rewrite Hc. cbn [request_json]. unfold py_get. rewrite !bind_lift_Ok, Ht.
      unfold try_except. rewrite bind_slice_to, Hs, bind_lift_Raise. reflexivity. }
  apply (bind_seq _ _ _ _ _ _ _ Hk).
  rewrite Hc. cbn [request_json]. unfold py_get at 1 2. rewrite !bind_lift_Ok, Ht.
  unfold try_except. rewrite bind_slice_to, Hs, bind_lift_Ok.
  unfold bind at 1, post, sarvam_answer, sarvam_decode.
  destruct (requests_post w _) as [response|e]; [|reflexivity].
  destruct (negb (status_code response =? 200)); [reflexivity|].
  destruct (response_json response) as [envelope|e];
    [rewrite bind_lift_Ok|rewrite bind_lift_Raise; reflexivity].
  destruct (py_get envelope _ _) as [audios|e];
    [rewrite bind_lift_Ok|rewrite bind_lift_Raise; reflexivity].
  destruct (py_item0 audios) as [audio_data|e];
    [rewrite bind_lift_Ok|rewrite bind_lift_Raise; reflexivity].
  destruct (truthy audio_data); [|reflexivity].
  destruct (b64decode audio_data) as [audio_bytes|e];
    [rewrite bind_lift_Ok|rewrite bind_lift_Raise]; reflexivity.
Qed.

(** When loading the key raises, the exception leaves the handler. *)
Lemma sarvam_tts_load_raises (request : Request) (w : World) (t0 : list event) (e : exn) :
  load_key (py "VITE_SARVAM_API_KEY") w = (t0, Raise e) ->
  sarvam_tts b64decode request w = (t0, Raise e).
Proof. intros Hk. unfold sarvam_tts. apply bind_run_Raise. exact Hk. Qed.

End SarvamRun.

(** ** The calls to the upstream *)

(** [text_to_speech] calls the upstream at most once, and only after the
    text and key checks, the voice lookup and the slice have passed. *)
Lemma text_to_speech_post (KEY : pystr) (d : gmap pystr pyvalue) (w : World) (q : upstream_request) :
  In (Post q) (fst (text_to_speech KEY (json_request d) w)) ->
  exists voice_id sliced,
    truthy (text_of d) = true /\ KEY <> []
    /\ dict_get VOICES (voice_of d) rachel_id = Ok voice_id
    /\ py_slice_to (slices_hash w) (text_of d) 1000 = Ok sliced
    /\ q = elevenlabs_call KEY voice_id sliced
    /\ text_to_speech KEY (json_request d) w
       = ([Post q], Ok (elevenlabs_answer (requests_post w q))).
Proof.
  unfold json_request, text_of, voice_of. rewrite text_to_speech_run. cbv zeta.
  destruct (truthy (default (PStr []) (d !! py "text"))) eqn:Ht; cbn [negb fst];
    [|intros []].
  destruct (truthy (PStr KEY)) eqn:Hk; cbn [negb fst]; [|intros []].
  destruct (dict_get VOICES _ rachel_id) as [voice_id|e]; cbn [fst]; [|intros []].
  destruct (py_slice_to _ _ 1000) as [sliced|e]; cbn [fst]; [|intros []].
  intros [Hq|[]]. injection Hq as <-.
  exists voice_id, sliced. apply truthy_str_true in Hk. auto 10.
Qed.

Lemma load_key_no_post (name : pystr) (w : World) (q : upstream_request) :
  ~ In (Post q) (fst (load_key name w)).
Proof.
  destruct (load_key_cases name w) as [(v & _ & ->)|(r & -> & _)]; cbn [fst In];
    intuition discriminate.
Qed.

Section SarvamPost.

Variable b64decode : pyvalue -> Result bytes.

Lemma sarvam_tts_post (d : gmap pystr pyvalue) (w : World) (q : upstream_request) :
  In (Post q) (fst (sarvam_tts b64decode (json_request d) w)) ->
  exists t0 key sliced,
    load_key (py "VITE_SARVAM_API_KEY") w = (t0, Ok key) /\ key <> []
    /\ truthy (text_of d) = true
    /\ py_slice_to (slices_hash w) (text_of d) 500 = Ok sliced
    /\ q = sarvam_call key (language_of d) sliced
    /\ sarvam_tts b64decode (json_request d) w
       = (t0 ++ [Post q], Ok (sarvam_answer b64decode (requests_post w q))).
Proof.
  pose proof (load_key_no_post (py "VITE_SARVAM_API_KEY") w q) as Hno.
  destruct (load_key (py "VITE_SARVAM_API_KEY") w) as [t0 [key|e]] eqn:Hload.
  2:{ rewrite (sarvam_tts_load_raises _ _ _ _ _ Hload). intros H. contradiction. }
  unfold json_request, text_of, language_of.
  rewrite (sarvam_tts_run _ _ _ _ _ Hload). cbv zeta. cbn [fst] in Hno.
  destruct (truthy (PStr key)) eqn:Hk; cbn [negb fst]; [|intros H; contradiction].
  destruct (truthy (default (PStr []) (d !! py "text"))) eqn:Ht; cbn [negb fst];
    [|intros H; contradiction].
  destruct (py_slice_to _ _ 500) as [sliced|e]; cbn [fst]; [|intros H; contradiction].
  intros H. apply in_app_or in H as [H|[H|[]]]; [contradiction|].
  injection H as <-. exists t0, key, sliced. apply truthy_str_true in Hk. auto 10.
Qed.

End SarvamPost.

(** ** The voice lookup and the fields of the calls *)

Lemma dict_get_hashable (d : gmap pystr pystr) (k : pyvalue) (dflt : pystr) :
  hashable k = true -> exists id, dict_get d k dflt = Ok id.
Proof. destruct k; simpl; intros H; try discriminate H; eauto. Qed.

Lemma dict_get_unhashable (d : gmap pystr pystr) (k : pyvalue) (dflt : pystr) :
  hashable k = false ->
  dict_get d k dflt = Raise (TypeError ("unhashable type: '" ++ type_name k ++ "'")).
Proof. destruct k; simpl; intros H; try discriminate H; reflexivity. Qed.

Lemma elevenlabs_call_text (key voice_id : pystr) (sliced : pyvalue) :
  req_json (elevenlabs_call key voice_id sliced) !! py "text" = Some sliced.
Proof. reflexivity. Qed.

Lemma elevenlabs_call_key (key voice_id : pystr) (sliced : pyvalue) :
  req_headers (elevenlabs_call key voice_id sliced) !! py "xi-api-key" = Some key.
Proof. reflexivity. Qed.

Lemma sarvam_call_text (key : pystr) (language sliced : pyvalue) :
  req_json (sarvam_call key language sliced) !! py "text" = Some sliced.
Proof. reflexivity. Qed.

Lemma sarvam_call_key (key : pystr) (language sliced : pyvalue) :
  req_headers (sarvam_call key language sliced) !! py "API-Subscription-Key" = Some key.
Proof. reflexivity. Qed.

(** ** The events of a request, whatever its body *)

Lemma text_to_speech_trace (KEY : pystr) (request : Request) (w : World) :
  fst (text_to_speech KEY request w) = []
  \/ exists voice_id sliced,
       fst (text_to_speech KEY request w) = [Post (elevenlabs_call KEY voice_id sliced)].
Proof.
  destruct request as [[v|e]]; [|left; reflexivity].
  destruct v as [| | | | | |d];
    try (left; rewrite text_to_speech_not_dict by (intros; discriminate); reflexivity).
  rewrite text_to_speech_run. cbv zeta.
  destruct (negb (truthy _)); [left; reflexivity|].
  destruct (negb (truthy _)); [left; reflexivity|].
  destruct (dict_get _ _ _) as [voice_id|e]; [|left; reflexivity].
  destruct (py_slice_to _ _ _) as [sliced|e]; [|left; reflexivity].
  right. exists voice_id, sliced. reflexivity.
Qed.

Section SarvamAnyBody.

Variable b64decode : pyvalue -> Result bytes.

Lemma sarvam_tts_unconfigured (request : Request) (w : World) (t0 : list event) :
  load_key (py "VITE_SARVAM_API_KEY") w = (t0, Ok []) ->
  sarvam_tts b64decode request w
  = (t0, Ok (jsonify (error_dict (py "Sarvam API key not configured")) 500)).
Proof.
  intros Hk. unfold sarvam_tts. rewrite <- (app_nil_r t0).
  apply (bind_seq _ _ _ _ _ _ _ Hk). reflexivity.
Qed.

Lemma sarvam_tts_bad_body (e : exn) (w : World) (t0 : list event) (key : pystr) :
  load_key (py "VITE_SARVAM_API_KEY") w = (t0, Ok key) -> key <> [] ->
  sarvam_tts b64decode {| request_json := Raise e |} w = (t0, Raise e).
Proof.
  intros Hk Hne. unfold sarvam_tts. rewrite <- (app_nil_r t0).
  apply (bind_seq _ _ _ _ _ _ _ Hk).
  apply truthy_str_true in Hne. rewrite Hne. reflexivity.
Qed.

Lemma sarvam_tts_not_dict (v : pyvalue) (w : World) (t0 : list event) (key : pystr) :
  load_key (py "VITE_SARVAM_API_KEY") w = (t0, Ok key) -> key <> [] ->
  (forall d, v <> PDict d) ->
  sarvam_tts b64decode {| request_json := Ok v |} w
  = (t0, Raise (AttributeError ("'" ++ type_name v ++ "' object has no attribute 'get'"))).
Proof.
  intros Hk Hne Hv. unfold sarvam_tts. rewrite <- (app_nil_r t0).
  apply (bind_seq _ _ _ _ _ _ _ Hk).
  apply truthy_str_true in Hne. rewrite Hne. cbn [negb request_json].
  rewrite bind_lift_Ok.
  destruct v; try reflexivity. exfalso. eapply Hv. reflexivity.
Qed.

(** [sarvam_tts] first loads its key, then calls the upstream at most once,
    with the key it has just loaded. *)
Lemma sarvam_tts_trace (request : Request) (w : World) :
  exists t',
    fst (sarvam_tts b64decode request w)
    = fst (load_key (py "VITE_SARVAM_API_KEY") w) ++ t'
    /\ (t' = []
        \/ exists key language sliced,
             snd (load_key (py "VITE_SARVAM_API_KEY") w) = Ok key
             /\ t' = [Post (sarvam_call key language sliced)]).
Proof.
  destruct (load_key (py "VITE_SARVAM_API_KEY") w) as [t0 [key|e]] eqn:Hload.
  2:{ exists []. rewrite (sarvam_tts_load_raises _ _ _ _ _ Hload), app_nil_r. auto. }
  cbn [fst snd].
  destruct (decide (key = [])) as [->|Hne].
  { exists []. rewrite (sarvam_tts_unconfigured _ _ _ Hload), app_nil_r. auto. }
  destruct request as [[v|e]].
  2:{ exists []. rewrite (sarvam_tts_bad_body _ _ _ _ Hload Hne), app_nil_r. auto. }
  destruct v as [| | | | | |d];
    try (exists []; rewrite (sarvam_tts_not_dict _ _ _ _ Hload Hne) by (intros; discriminate);
         rewrite app_nil_r; auto).
  rewrite (sarvam_tts_run _ _ _ _ _ Hload). cbv zeta.
  destruct (negb (truthy (PStr key))); [exists []; rewrite app_nil_r; auto|].
  destruct (negb (truthy _)); [exists []; rewrite app_nil_r; auto|].
  destruct (py_slice_to _ _ _) as [sliced|e]; [|exists []; rewrite app_nil_r; auto].
  eexists. split; [reflexivity|]. right. eauto.
Qed.

End SarvamAnyBody.

(** ** Resolution of a key (C8) *)

(** C8, as stated, fails: with [VITE_SARVAM_API_KEY] set to the empty string
    in the environment and a line [VITE_SARVAM_API_KEY= sv-file ] in [.env],
    the file is opened and its value is the key. *)
Lemma environ_set_empty_reads_file : ~ environ_set_shadows_file.
Proof.
  intros H.
  specialize (H SARVAM_NAME [] (world_file (answering 200 [] not_json))).
  assert (Hrun : load_key SARVAM_NAME (world_file (answering 200 [] not_json))
                 = ([EnvironGet SARVAM_NAME; Open (py ".env")], Ok (py "sv-file")))
    by (vm_compute; reflexivity).
  rewrite Hrun in H. specialize (H eq_refl). discriminate H.
Qed.

(** C8, amended: a key is the value of its environment variable when that is
    set and not empty, and then [.env] is not opened.  When the variable is
    unset or empty, [.env] is opened and the key is the stripped text after
    [NAME=] on the first line that starts with [NAME=] (what follows that
    line is not read); it is empty (unconfigured) when the file is read to
    its end and no line does, or when the file is absent. *)
Theorem load_key_resolution (name : pystr) (w : World) :
  ~ In 61%N name ->
  (forall v, environ w !! name = Some v -> v <> [] ->
     load_key name w = ([EnvironGet name], Ok v))
  /\ (default [] (environ w !! name) = [] ->
      (forall f pre value post,
         dotenv w = Ok f ->
         file_lines f = pre ++ (name ++ py "=" ++ value) :: post ->
         Forall (fun l => startswith (name ++ py "=") l = false) pre ->
         load_key name w = ([EnvironGet name; Open (py ".env")], Ok (strip value)))
      /\ (forall f,
         dotenv w = Ok f -> file_error f = None ->
         Forall (fun l => startswith (name ++ py "=") l = false) (file_lines f) ->
         load_key name w = ([EnvironGet name; Open (py ".env")], Ok []))
      /\ (forall e,
         dotenv w = Raise e -> exn_class e = "FileNotFoundError"%string ->
         load_key name w = ([EnvironGet name; Open (py ".env")], Ok []))).
Proof.
  intros Hname. split; [intros v; apply load_key_environ|].
  intros Henv. repeat split.
  - intros f pre value post Hf Hlines Hpre.
    apply (load_key_file_found name value pre post f); assumption.
  - intros f Hf Herr Hnone.
    apply (load_key_file_none name f); assumption.
  - intros e Hf Hc. apply (load_key_absent name e); assumption.
Qed.

Lemma load_key_resolution_witness :
  ~ In 61%N SARVAM_NAME
  /\ load_key SARVAM_NAME (world_env (answering 200 [] not_json))
     = ([EnvironGet SARVAM_NAME], Ok (py "sv-key"))
  /\ load_key SARVAM_NAME (world_bare (answering 200 [] not_json))
     = ([EnvironGet SARVAM_NAME; Open (py ".env")], Ok []).
Proof.
  assert (Hname : ~ In 61%N SARVAM_NAME) by (vm_compute; intuition discriminate).
  split; [exact Hname|]. split.
  - apply (proj1 (load_key_resolution SARVAM_NAME _ Hname)).
    + vm_compute. reflexivity.
    + discriminate.
  - destruct (load_key_resolution SARVAM_NAME
                (world_bare (answering 200 [] not_json)) Hname) as [_ Hfile].
    destruct (Hfile eq_refl) as (_ & _ & Habsent).
    eapply Habsent; reflexivity.
Defined.

(** ** Requests without text (C1) *)

Lemma no_text_falsy (d : gmap pystr pyvalue) :
  no_text d -> truthy (text_of d) = false.
Proof. unfold text_of. intros [-> | ->]; reflexivity. Qed.

(** C1, as stated, fails: [POST /tts/sarvam] with the body [{}], no key in
    the environment and no [.env] file is answered with 500. *)
Lemma no_text_sarvam_unconfigured_500 : ~ no_text_always_400.
Proof.
  intros H.
  destruct (H b64decode_rejecting [] POST_tts_sarvam ∅
              (world_bare (answering 200 [] not_json)))
    as (t & msg & Hrun).
  - discriminate.
  - left. reflexivity.
  - vm_compute in Hrun. discriminate Hrun.
Qed.

(** C1, amended: a JSON body whose [text] is empty or missing is answered
    with 400 and [{"error": "No text provided"}] by [POST /tts] whatever the
    ElevenLabs key is, and by [POST /tts/sarvam] when the Sarvam key is
    configured; when the Sarvam key is not configured, [POST /tts/sarvam]
    answers 500 and [{"error": "Sarvam API key not configured"}]. *)
Theorem no_text_400 (b64decode : pyvalue -> Result bytes) (KEY : pystr)
    (d : gmap pystr pyvalue) (w : World) :
  no_text d ->
  handle b64decode KEY POST_tts (json_request d) w
  = ([], Ok (jsonify (error_dict (py "No text provided")) 400))
  /\ (forall t0 key,
        load_key SARVAM_NAME w = (t0, Ok key) -> key <> [] ->
        handle b64decode KEY POST_tts_sarvam (json_request d) w
        = (t0, Ok (jsonify (error_dict (py "No text provided")) 400)))
  /\ (forall t0,
        load_key SARVAM_NAME w = (t0, Ok []) ->
        handle b64decode KEY POST_tts_sarvam (json_request d) w
        = (t0, Ok (jsonify (error_dict (py "Sarvam API key not configured")) 500))).
Proof.
  intros Hd. apply no_text_falsy in Hd. unfold text_of in Hd.
  cbn [handle]. unfold json_request. repeat split.
  - rewrite text_to_speech_run. cbv zeta. rewrite Hd. reflexivity.
  - intros t0 key Hload Hkey. rewrite (sarvam_tts_run _ _ _ _ _ Hload). cbv zeta.
    apply truthy_str_true in Hkey. rewrite Hkey, Hd. reflexivity.
  - intros t0 Hload. rewrite (sarvam_tts_run _ _ _ _ _ Hload). reflexivity.
Qed.

Lemma no_text_400_witness :
  no_text ∅
  /\ handle b64decode_rejecting [] POST_tts (json_request ∅)
       (world_env (answering 200 [] not_json))
     = ([], Ok (jsonify (error_dict (py "No text provided")) 400))
  /\ handle b64decode_rejecting [] POST_tts_sarvam (json_request ∅)
       (world_env (answering 200 [] not_json))
     = ([EnvironGet SARVAM_NAME], Ok (jsonify (error_dict (py "No text provided")) 400)).
Proof.
  assert (Hd : no_text ∅) by (left; reflexivity).
  destruct (no_text_400 b64decode_rejecting [] ∅
              (world_env (answering 200 [] not_json)) Hd) as (Htts & Hsarvam & _).
  split; [exact Hd|]. split; [exact Htts|].
  apply (Hsarvam [EnvironGet SARVAM_NAME] (py "sv-key")).
  - vm_compute. reflexivity.
  - discriminate.
Defined.

(** ** The health check (C9) *)

(** C9: [GET /health] answers 200 with the body
    [{"status": "ok", "elevenlabs_configured": b}], where [b] is true exactly
    when the ElevenLabs key is not empty; it reads nothing, calls nothing and
    raises nothing. *)
Theorem health_ok (b64decode : pyvalue -> Result bytes) (KEY : pystr)
    (request : Request) (w : World) :
  exists b : bool,
    handle b64decode KEY GET_health request w
    = ([], Ok {| status := 200;
                 mimetype := py "application/json";
                 headers := ∅;
                 body := Json (list_to_map
                   [ (py "status", PStr (py "ok"));
                     (py "elevenlabs_configured", PBool b) ]) |})
    /\ (b = true <-> KEY <> []).
Proof.
  exists (truthy (PStr KEY)). split; [reflexivity|]. apply truthy_str_true.
Qed.

(** ** When the keys are read (C2) *)

(** C2, as stated, fails: the handler of [POST /tts/sarvam] reads the
    environment on every request, here for the body [{}] with no key in the
    environment and no [.env] file. *)
Lemma sarvam_reads_environ_per_request : ~ credentials_resolved_once.
Proof.
  intros H.
  specialize (H b64decode_rejecting
                (world_env (answering 200 [] not_json))
                (world_bare (answering 200 [] not_json))
                [EnvironGet ELEVENLABS_NAME] (py "el-key")
                POST_tts_sarvam (json_request ∅)).
  assert (Hstart : startup (world_env (answering 200 [] not_json))
                   = ([EnvironGet ELEVENLABS_NAME], Ok (py "el-key")))
    by (vm_compute; reflexivity).
  specialize (H Hstart).
  assert (Ht : fst (handle b64decode_rejecting (py "el-key") POST_tts_sarvam
                      (json_request ∅) (world_bare (answering 200 [] not_json)))
               = [EnvironGet SARVAM_NAME; Open (py ".env")])
    by (vm_compute; reflexivity).
  destruct H as [H _].
  rewrite Ht in H. apply Forall_inv in H. destruct H as [q Hq]. discriminate Hq.
Qed.

(** The key of the upstream call follows [.env] as it is when the request
    is handled: resolved in a world without [.env] the Sarvam key is empty,
    and a later request, handled when [.env] has the line, is sent with the
    key of the file. *)
Example sarvam_key_follows_file :
  load_key SARVAM_NAME (world_bare (answering 200 [] not_json))
  = ([EnvironGet SARVAM_NAME; Open (py ".env")], Ok [])
  /\ fst (handle b64decode_rejecting [] POST_tts_sarvam
            (json_request {[ py "text" := PStr (py "namaste") ]})
            (world_file (answering 200 [] not_json)))
     = [EnvironGet SARVAM_NAME; Open (py ".env");
        Post (sarvam_call (py "sv-file") (PStr (py "en-IN")) (PStr (py "namaste")))].
Proof. split; vm_compute; reflexivity. Qed.

(** C2, amended: the ElevenLabs key is resolved once, by the module-level
    code (environment variable first, then [.env]), and is fixed afterwards:
    the handlers of [POST /tts] and [GET /health] read neither the
    environment nor [.env], and every upstream call of theirs carries the key
    resolved at startup.  The Sarvam key is not resolved at startup: the
    handler of [POST /tts/sarvam] resolves it on every request, reading the
    environment (and [.env] when the variable is unset or empty) as they are
    at that time, and its upstream call carries the key it has just
    resolved. *)
Theorem primary_key_fixed_secondary_reloaded (b64decode : pyvalue -> Result bytes)
    (w0 w : World) (t0 : list event) (KEY : pystr) (request : Request) :
  startup w0 = (t0, Ok KEY) ->
  (t0 = [EnvironGet ELEVENLABS_NAME] \/ t0 = [EnvironGet ELEVENLABS_NAME; Open (py ".env")])
  /\ (forall r, r <> POST_tts_sarvam ->
        Forall (fun ev => exists q, ev = Post q
                                    /\ req_headers q !! py "xi-api-key" = Some KEY)
               (fst (handle b64decode KEY r request w)))
  /\ (exists t',
        fst (handle b64decode KEY POST_tts_sarvam request w)
        = fst (load_key SARVAM_NAME w) ++ t'
        /\ In (EnvironGet SARVAM_NAME) (fst (load_key SARVAM_NAME w))
        /\ forall q, In (Post q) t' ->
             exists key, snd (load_key SARVAM_NAME w) = Ok key
                         /\ req_headers q !! py "API-Subscription-Key" = Some key).
Proof.
  intros Hstart. split; [|split].
  - unfold startup in Hstart.
    destruct (load_key_cases (py "VITE_ELEVENLABS_API_KEY") w0)
      as [(v & _ & Hl)|(r & Hl & _)]; rewrite Hl in Hstart;
      injection Hstart as <- _; auto.
  - intros r Hr. destruct r; [|contradiction|]; cbn [handle].
    + destruct (text_to_speech_trace KEY request w) as [->|(voice_id & sliced & ->)].
      * constructor.
      * constructor; [|constructor]. eexists. split; [reflexivity|].
        apply elevenlabs_call_key.
    + constructor.
  - cbn [handle]. destruct (sarvam_tts_trace b64decode request w) as (t' & Ht & Hcases).
    exists t'. split; [exact Ht|]. split.
    + destruct (load_key_cases SARVAM_NAME w) as [(v & _ & Hl)|(r & Hl & _)];
        rewrite Hl; left; reflexivity.
    + intros q Hq. destruct Hcases as [->|(key & language & sliced & Hkey & ->)].
      * destruct Hq.
      * destruct Hq as [Hq|[]]. injection Hq as <-.
        exists key. split; [exact Hkey|]. apply sarvam_call_key.
Qed.

Lemma primary_key_fixed_secondary_reloaded_witness :
  startup (world_file (answering 200 [] not_json))
  = ([EnvironGet ELEVENLABS_NAME; Open (py ".env")], Ok (py "el-file"))
  /\ Forall (fun ev => exists q, ev = Post q
                                 /\ req_headers q !! py "xi-api-key" = Some (py "el-file"))
            (fst (handle b64decode_rejecting (py "el-file") POST_tts (json_request ∅)
                    (world_bare (answering 200 [] not_json)))).
Proof.
  assert (Hstart : startup (world_file (answering 200 [] not_json))
                   = ([EnvironGet ELEVENLABS_NAME; Open (py ".env")], Ok (py "el-file")))
    by (vm_compute; reflexivity).
  split; [exact Hstart|].
  destruct (primary_key_fixed_secondary_reloaded b64decode_rejecting
              (world_file (answering 200 [] not_json))
              (world_bare (answering 200 [] not_json))
              _ _ (json_request ∅) Hstart) as (_ & Hfixed & _).
  apply Hfixed. discriminate.
Defined.

(** ** The voice catalog (C7) *)



(** ** Truncation of the text (C5) *)

(** C5: for a body whose [text] is a non-empty string, every upstream call
    of [POST /tts] carries the first 1000 characters of the text, and every
    upstream call of [POST /tts/sarvam] the first 500; the call is made as
    soon as the key is configured (and, for [POST /tts], the voice can be
    looked up).  A text within the limit is forwarded unchanged, a longer
    one is cut to exactly the limit. *)
Theorem forwarded_text_truncated (b64decode : pyvalue -> Result bytes) (KEY : pystr)
    (d : gmap pystr pyvalue) (w : World) (text : pystr) :
  d !! py "text" = Some (PStr text) -> text <> [] ->
  (forall q, In (Post q) (fst (text_to_speech KEY (json_request d) w)) ->
     req_json q !! py "text" = Some (PStr (firstn 1000 text)))
  /\ (forall q, In (Post q) (fst (sarvam_tts b64decode (json_request d) w)) ->
     req_json q !! py "text" = Some (PStr (firstn 500 text)))
  /\ (forall voice_id,
     KEY <> [] -> dict_get VOICES (voice_of d) rachel_id = Ok voice_id ->
     fst (text_to_speech KEY (json_request d) w)
     = [Post (elevenlabs_call KEY voice_id (PStr (firstn 1000 text)))])
  /\ (forall t0 key,
     load_key SARVAM_NAME w = (t0, Ok key) -> key <> [] ->
     fst (sarvam_tts b64decode (json_request d) w)
     = t0 ++ [Post (sarvam_call key (language_of d) (PStr (firstn 500 text)))])
  /\ (forall n, (length text <= n)%nat -> firstn n text = text)
  /\ (forall n, (n < length text)%nat ->
     length (firstn n text) = n
     /\ exists rest, rest <> [] /\ text = firstn n text ++ rest).
Proof.
  intros Hd Hne.
  assert (Htext : text_of d = PStr text) by (unfold text_of; rewrite Hd; reflexivity).
  assert (Htruthy : truthy (PStr text) = true) by (apply truthy_str_true; exact Hne).
  repeat split.
  - intros q Hq.
    destruct (text_to_speech_post KEY d w q Hq)
      as (voice_id & sliced & _ & _ & _ & Hs & -> & _).
    rewrite Htext in Hs. injection Hs as <-. apply elevenlabs_call_text.
  - intros q Hq.
    destruct (sarvam_tts_post b64decode d w q Hq)
      as (t0 & key & sliced & _ & _ & _ & Hs & -> & _).
    rewrite Htext in Hs. injection Hs as <-. apply sarvam_call_text.
  - intros voice_id Hkey Hvoice. unfold json_request.
    rewrite text_to_speech_run. cbv zeta.
    fold (text_of d) (voice_of d). rewrite Htext, Htruthy, Hvoice.
    apply truthy_str_true in Hkey. rewrite Hkey. reflexivity.
  - intros t0 key Hload Hkey. unfold json_request.
    rewrite (sarvam_tts_run _ _ _ _ _ Hload). cbv zeta.
    fold (text_of d) (language_of d). rewrite Htext, Htruthy.
    apply truthy_str_true in Hkey. rewrite Hkey. reflexivity.
  - intros n Hn. apply take_ge. exact Hn.
  - rewrite length_take. lia.
  - exists (skipn n text). split; [|symmetry; apply take_drop].
    intros Hnil. apply (f_equal length) in Hnil. rewrite length_drop in Hnil.
    simpl in Hnil. lia.
Qed.

Lemma forwarded_text_truncated_witness :
  (({[ py "text" := PStr (py "hello") ]} : gmap pystr pyvalue) !! py "text"
   = Some (PStr (py "hello")))
  /\ py "hello" <> []
  /\ fst (text_to_speech (py "el-key") (json_request {[ py "text" := PStr (py "hello") ]})
            (world_env (answering 200 [] not_json)))
     = [Post (elevenlabs_call (py "el-key") rachel_id (PStr (firstn 1000 (py "hello"))))].
Proof.
  assert (Hd : ({[ py "text" := PStr (py "hello") ]} : gmap pystr pyvalue) !! py "text"
               = Some (PStr (py "hello"))) by (vm_compute; reflexivity).
  assert (Hne : py "hello" <> []) by discriminate.
  split; [exact Hd|]. split; [exact Hne|].
  destruct (forwarded_text_truncated b64decode_rejecting (py "el-key") _
              (world_env (answering 200 [] not_json)) _ Hd Hne)
    as (_ & _ & Hcall & _).
  apply Hcall.
  - discriminate.
  - vm_compute. reflexivity.
Defined.

(** The cut is at the boundary: of 1001 characters the first 1000 are
    forwarded by [POST /tts], of 501 the first 500 by [POST /tts/sarvam]. *)
Example truncation_boundary :
  fst (text_to_speech (py "el-key")
         (json_request {[ py "text" := PStr (repeat 97%N 1000 ++ [98%N]) ]})
         (world_env (answering 200 [] not_json)))
  = [Post (elevenlabs_call (py "el-key") rachel_id (PStr (repeat 97%N 1000)))]
  /\ fst (sarvam_tts b64decode_rejecting
            (json_request {[ py "text" := PStr (repeat 97%N 500 ++ [98%N]) ]})
            (world_env (answering 200 [] not_json)))
     = [EnvironGet SARVAM_NAME;
        Post (sarvam_call (py "sv-key") (PStr (py "en-IN")) (PStr (repeat 97%N 500)))].
Proof. split; vm_compute; reflexivity. Qed.

(** ** The upstream status (C6) *)

(** C6, as stated, fails: when the upstream answers [POST /tts] with status
    201, the handler answers 500 and [{"error": "ElevenLabs error: 201"}]. *)
Lemma upstream_201_is_error : ~ upstream_2xx_succeeds.
Proof.
  intros H.
  specialize (H (py "el-key") {[ py "text" := PStr (py "hello") ]}
                (world_env (answering 201 [] not_json))
                (elevenlabs_call (py "el-key") rachel_id (PStr (py "hello")))
                {| status_code := 201; content := []; response_json := not_json |}).
  assert (Hrun : text_to_speech (py "el-key")
                   (json_request {[ py "text" := PStr (py "hello") ]})
                   (world_env (answering 201 [] not_json))
                 = ([Post (elevenlabs_call (py "el-key") rachel_id (PStr (py "hello")))],
                    Ok (jsonify (error_dict (py "ElevenLabs error: 201")) 500)))
    by (vm_compute; reflexivity).
  rewrite Hrun in H. cbn [fst snd] in H.
  specialize (H (or_introl eq_refl) eq_refl). cbn [status_code] in H.
  assert (Hcode : 200 <= 201 < 300) by lia.
  specialize (H Hcode). vm_compute in H. discriminate H.
Qed.

(** C6, amended: once the upstream has answered the call of a synthesis
    route, the route answers 500 with the message ["ElevenLabs error: N"]
    (["Sarvam error: N"]), [N] the upstream status, when that status is not
    200, and only the status 200 proceeds: to the audio response on
    [POST /tts], to the decoding of the envelope on [POST /tts/sarvam].  On
    [POST /tts] the status error is the answer exactly when the status is not
    200. *)
Theorem upstream_status_gate (b64decode : pyvalue -> Result bytes) (KEY : pystr)
    (d : gmap pystr pyvalue) (w : World) (q : upstream_request)
    (response : upstream_response) :
  requests_post w q = Ok response ->
  (In (Post q) (fst (text_to_speech KEY (json_request d) w)) ->
     (status_code response <> 200 ->
        snd (text_to_speech KEY (json_request d) w)
        = Ok (jsonify (error_dict (py "ElevenLabs error: " ++ str_int (status_code response))) 500))
     /\ (status_code response = 200 ->
        snd (text_to_speech KEY (json_request d) w)
        = Ok (make_response (content response) (py "audio/mpeg")
                {[ py "Content-Disposition" := py "inline" ]}))
     /\ (snd (text_to_speech KEY (json_request d) w)
         = Ok (jsonify (error_dict (py "ElevenLabs error: " ++ str_int (status_code response))) 500)
         <-> status_code response <> 200))
  /\ (In (Post q) (fst (sarvam_tts b64decode (json_request d) w)) ->
     (status_code response <> 200 ->
        snd (sarvam_tts b64decode (json_request d) w)
        = Ok (jsonify (error_dict (py "Sarvam error: " ++ str_int (status_code response))) 500))
     /\ (status_code response = 200 ->
        snd (sarvam_tts b64decode (json_request d) w)
        = Ok (match sarvam_decode b64decode response with
              | Ok resp => resp
              | Raise e => jsonify (error_dict (exn_str e)) 500
              end))).
Proof.
  intros Hup. split.
  - intros Hq.
    destruct (text_to_speech_post KEY d w q Hq) as (voice_id & sliced & _ & _ & _ & _ & _ & ->).
    cbn [snd]. rewrite Hup. unfold elevenlabs_answer.
    destruct (Z.eqb_spec (status_code response) 200) as [Heq|Hneq]; cbn [negb].
    + split; [intros Hc; contradiction|]. split; [reflexivity|].
      split; [intros Hbad; discriminate Hbad|intros Hc; contradiction].
    + split; [reflexivity|]. split; [intros Hc; contradiction|].
      split; [intros _; exact Hneq|reflexivity].
  - intros Hq.
    destruct (sarvam_tts_post b64decode d w q Hq) as (t0 & key & sliced & _ & _ & _ & _ & _ & ->).
    cbn [snd]. rewrite Hup. unfold sarvam_answer.
    destruct (Z.eqb_spec (status_code response) 200) as [Heq|Hneq]; cbn [negb].
    + split; [intros Hc; contradiction|reflexivity].
    + split; [reflexivity|intros Hc; contradiction].
Qed.

Lemma upstream_status_gate_witness :
  requests_post (world_env (answering 201 [] not_json))
    (elevenlabs_call (py "el-key") rachel_id (PStr (py "hello")))
  = Ok {| status_code := 201; content := []; response_json := not_json |}
  /\ snd (text_to_speech (py "el-key") (json_request {[ py "text" := PStr (py "hello") ]})
            (world_env (answering 201 [] not_json)))
     = Ok (jsonify (error_dict (py "ElevenLabs error: " ++ str_int 201)) 500).
Proof.
  split; [reflexivity|].
  destruct (upstream_status_gate b64decode_rejecting (py "el-key")
              {[ py "text" := PStr (py "hello") ]}
              (world_env (answering 201 [] not_json))
              (elevenlabs_call (py "el-key") rachel_id (PStr (py "hello")))
              {| status_code := 201; content := []; response_json := not_json |}
              eq_refl) as [Htts _].
  destruct Htts as (Hbad & _ & _).
  - vm_compute. left. reflexivity.
  - apply Hbad. discriminate.
Defined.

(** ** A text that is not a string (C10) *)

(** C10, as stated, fails: a non-empty list is sliced like a string.  With
    the body [{"text": [1]}], a configured key and an upstream that answers
    200, [POST /tts] answers 200 with the audio. *)
Lemma list_text_is_forwarded : ~ non_string_text_500.
Proof.
  intros H.
  destruct (H (py "el-key") {[ py "text" := PList [PInt 1] ]}
              (world_env (answering 200 [] not_json)) (PList [PInt 1]))
    as (t & msg & Hrun).
  - vm_compute. reflexivity.
  - reflexivity.
  - intros s Hs. discriminate Hs.
  - vm_compute in Hrun. discriminate Hrun.
Qed.

Lemma elevenlabs_answer_not_400 (r : Result upstream_response) :
  status (elevenlabs_answer r) <> 400.
Proof.
  destruct r as [response|e]; unfold elevenlabs_answer;
    [destruct (negb (status_code response =? 200))|]; cbn [status jsonify make_response]; lia.
Qed.

(** C10, amended: on [POST /tts] a body whose [text] is truthy but not a
    string is never answered with 400.  Without a key the answer is the
    configuration error (500).  With a key, an unhashable [voice] makes the
    voice lookup raise before the [try], and the [TypeError] leaves the
    handler; with a hashable [voice], a text that is a number, a boolean or
    an object makes the slice raise inside the [try] (a [TypeError]; for an
    object, from Python 3.12 on, a [KeyError]), answered with 500 and the
    message of the exception, without an upstream call; and a text that is a
    non-empty list is sliced without an error, its first 1000 items are sent
    upstream as the text, and the answer is the one the upstream outcome
    gives. *)
Theorem non_sliceable_text_500 (KEY : pystr) (d : gmap pystr pyvalue) (w : World)
    (v : pyvalue) :
  d !! py "text" = Some v -> truthy v = true -> (forall s, v <> PStr s) ->
  (forall t resp, text_to_speech KEY (json_request d) w = (t, Ok resp) -> status resp <> 400)
  /\ (KEY = [] ->
      text_to_speech KEY (json_request d) w
      = ([], Ok (jsonify (error_dict (py "ElevenLabs API key not configured")) 500)))
  /\ (KEY <> [] -> hashable (voice_of d) = false ->
      text_to_speech KEY (json_request d) w
      = ([], Raise (TypeError ("unhashable type: '" ++ type_name (voice_of d) ++ "'"))))
  /\ (KEY <> [] -> hashable (voice_of d) = true -> (forall l, v <> PList l) ->
      exists e,
        py_slice_to (slices_hash w) v 1000 = Raise e
        /\ text_to_speech KEY (json_request d) w
           = ([], Ok (jsonify (error_dict (exn_str e)) 500))
        /\ ((forall dv, v <> PDict dv) ->
            e = TypeError ("'" ++ type_name v ++ "' object is not subscriptable"))
        /\ (forall dv, v = PDict dv -> slices_hash w = false ->
            e = TypeError "unhashable type: 'slice'")
        /\ (forall dv, v = PDict dv -> slices_hash w = true ->
            e = Exn "KeyError" (py "slice(None, 1000, None)")))
  /\ (forall l voice_id,
      v = PList l -> KEY <> [] -> dict_get VOICES (voice_of d) rachel_id = Ok voice_id ->
      text_to_speech KEY (json_request d) w
      = ([Post (elevenlabs_call KEY voice_id (PList (firstn 1000 l)))],
         Ok (elevenlabs_answer
               (requests_post w (elevenlabs_call KEY voice_id (PList (firstn 1000 l))))))).
Proof.
  intros Hd Hv Hstr.
  pose proof (text_to_speech_run KEY d w) as Hrun. cbv zeta in Hrun.
  fold (voice_of d) in Hrun. rewrite Hd in Hrun.
  change (default (PStr []) (Some v)) with v in Hrun.
  rewrite Hv in Hrun. cbn [negb] in Hrun. fold (json_request d) in Hrun.
  split; [|split; [|split; [|split]]].
  - intros t resp Hresp. rewrite Hrun in Hresp. clear Hrun.
    destruct (negb (truthy (PStr KEY))).
    { injection Hresp as _ <-. cbn [status jsonify]. lia. }
    destruct (dict_get VOICES (voice_of d) rachel_id) as [voice_id|e0]; [|discriminate Hresp].
    destruct (py_slice_to (slices_hash w) v 1000) as [sliced|e].
    + injection Hresp as _ <-. apply elevenlabs_answer_not_400.
    + injection Hresp as _ <-. cbn [status jsonify]. lia.
  - intros ->. rewrite Hrun. reflexivity.
  - intros Hkey Hvoice. rewrite Hrun. clear Hrun.
    apply truthy_str_true in Hkey. rewrite Hkey. cbn [negb].
    rewrite (dict_get_unhashable _ _ _ Hvoice). reflexivity.
  - intros Hkey Hvoice Hlist. rewrite Hrun. clear Hrun.
    apply truthy_str_true in Hkey. rewrite Hkey. cbn [negb].
    destruct (dict_get_hashable VOICES _ rachel_id Hvoice) as [voice_id ->].
    destruct v as [|b|n|m e|s|l|dv]; cbn [py_slice_to type_name];
      try (eexists; split; [reflexivity|]; split; [reflexivity|];
           split; [reflexivity|]; split; intros dv Hdv; discriminate Hdv).
    + exfalso. apply (Hstr s). reflexivity.
    + exfalso. apply (Hlist l). reflexivity.
    + destruct (slices_hash w); eexists; (split; [reflexivity|]);
        (split; [reflexivity|]);
        (split; [intros Hnd; exfalso; apply (Hnd dv); reflexivity|]);
        split; intros dv' _ Hh; try discriminate Hh; reflexivity.
  - intros l vid -> Hkey Hvid. rewrite Hrun. clear Hrun.
    apply truthy_str_true in Hkey. rewrite Hkey. cbn [negb py_slice_to].
    rewrite Hvid. reflexivity.
Qed.

Lemma non_sliceable_text_500_witness :
  (({[ py "text" := PInt 7 ]} : gmap pystr pyvalue) !! py "text" = Some (PInt 7))
  /\ truthy (PInt 7) = true
  /\ text_to_speech (py "el-key") (json_request {[ py "text" := PInt 7 ]})
       (world_env (answering 200 [] not_json))
     = ([], Ok (jsonify (error_dict (py "'int' object is not subscriptable")) 500)).
Proof.
  assert (Hd : ({[ py "text" := PInt 7 ]} : gmap pystr pyvalue) !! py "text" = Some (PInt 7))
    by (vm_compute; reflexivity).
  assert (Hstr : forall s, PInt 7 <> PStr s) by (intros s Hs; discriminate Hs).
  split; [exact Hd|]. split; [reflexivity|].
  destruct (non_sliceable_text_500 (py "el-key") _ (world_env (answering 200 [] not_json))
              (PInt 7) Hd eq_refl Hstr) as (_ & _ & _ & Hraise & _).
  destruct Hraise as (e & _ & Hrun & Hclass & _).
  - discriminate.
  - vm_compute. reflexivity.
  - intros l Hl. discriminate Hl.
  - rewrite Hrun, Hclass; [reflexivity|]. intros dv Hdv. discriminate Hdv.
Defined.

(** An object as the text, on both interpreters: the message is the one of
    the [KeyError] from Python 3.12 on, of the [TypeError] before. *)
Example object_text_by_interpreter :
  text_to_speech (py "el-key")
    (json_request {[ py "text" := PDict {[ py "a" := PInt 1 ]} ]})
    (world_env timing_out)
  = ([], Ok (jsonify (error_dict (py "slice(None, 1000, None)")) 500))
  /\ text_to_speech (py "el-key")
       (json_request {[ py "text" := PDict {[ py "a" := PInt 1 ]} ]})
       (before_python_3_12 (world_env timing_out))
     = ([], Ok (jsonify (error_dict (py "unhashable type: 'slice'")) 500)).
Proof. split; vm_compute; reflexivity. Qed.

(** ** Failures at the request boundary (C4) *)

(** C4, as stated, fails: the body [[]] is valid JSON but has no [get]; the
    [AttributeError] is raised before the [try] of [text_to_speech] and
    leaves the handler. *)
Lemma list_body_escapes : ~ every_failure_is_json.
Proof.
  intros H.
  destruct (H b64decode_rejecting (py "el-key") POST_tts
              {| request_json := Ok (PList []) |}
              (world_env (answering 200 [] not_json)))
    as (t & resp & Hrun & _).
  - discriminate.
  - vm_compute in Hrun. discriminate Hrun.
Qed.

(** An unhashable [voice] raises in [VOICES.get], before the [try]. *)
Lemma text_to_speech_unhashable_voice (KEY : pystr) (d : gmap pystr pyvalue) (w : World) :
  truthy (text_of d) = true -> KEY <> [] -> hashable (voice_of d) = false ->
  text_to_speech KEY (json_request d) w
  = ([], Raise (TypeError ("unhashable type: '" ++ type_name (voice_of d) ++ "'"))).
Proof.
  intros Ht Hk Hv. unfold json_request. rewrite text_to_speech_run. cbv zeta.
  fold (text_of d) (voice_of d). apply truthy_str_true in Hk.
  rewrite Ht, Hk, (dict_get_unhashable _ _ _ Hv). reflexivity.
Qed.

Lemma jsonify_error_shape (msg : pystr) (code : Z) :
  code = 400 \/ code = 500 -> audio_or_json_error (jsonify (error_dict msg) code).
Proof. intros Hc. right. eauto. Qed.

Lemma elevenlabs_answer_shape (r : Result upstream_response) :
  audio_or_json_error (elevenlabs_answer r).
Proof.
  destruct r as [response|e]; unfold elevenlabs_answer.
  - destruct (negb (status_code response =? 200)).
    + apply jsonify_error_shape. auto.
    + left. eauto.
  - apply jsonify_error_shape. auto.
Qed.

Lemma sarvam_answer_shape (b64decode : pyvalue -> Result bytes) (r : Result upstream_response) :
  audio_or_json_error (sarvam_answer b64decode r).
Proof.
  destruct r as [response|e]; unfold sarvam_answer; [|apply jsonify_error_shape; auto].
  destruct (negb (status_code response =? 200)); [apply jsonify_error_shape; auto|].
  unfold sarvam_decode.
  destruct (response_json response) as [envelope|e]; [|apply jsonify_error_shape; auto].
  destruct (py_get envelope _ _) as [audios|e]; [|apply jsonify_error_shape; auto].
  destruct (py_item0 audios) as [audio_data|e]; [|apply jsonify_error_shape; auto].
  destruct (truthy audio_data); [|apply jsonify_error_shape; auto].
  destruct (b64decode audio_data) as [audio_bytes|e]; [|apply jsonify_error_shape; auto].
  left. eauto.
Qed.

Lemma text_to_speech_answers (KEY : pystr) (d : gmap pystr pyvalue) (w : World) :
  hashable (voice_of d) = true ->
  exists t resp,
    text_to_speech KEY (json_request d) w = (t, Ok resp) /\ audio_or_json_error resp.
Proof.
  intros Hvoice.
  destruct (dict_get_hashable VOICES _ rachel_id Hvoice) as [voice_id Hget].
  unfold json_request. rewrite text_to_speech_run. cbv zeta.
  fold (voice_of d). rewrite Hget.
  destruct (negb (truthy _));
    [do 2 eexists; split; [reflexivity|apply jsonify_error_shape; auto]|].
  destruct (negb (truthy _));
    [do 2 eexists; split; [reflexivity|apply jsonify_error_shape; auto]|].
  destruct (py_slice_to _ _ _) as [sliced|e];
    do 2 eexists; (split; [reflexivity|]);
    [apply elevenlabs_answer_shape|apply jsonify_error_shape; auto].
Qed.

Lemma tts_outcome_shape (KEY : pystr) (d : gmap pystr pyvalue) (w : World)
    (t : list event) (resp : Response) :
  tts_outcome KEY d w t resp -> audio_or_json_error resp.
Proof.
  intros H. destruct H; try (apply jsonify_error_shape; auto).
  left. eauto.
Qed.

Lemma sarvam_outcome_shape (b64decode : pyvalue -> Result bytes) (key : pystr)
    (d : gmap pystr pyvalue) (w : World) (t : list event) (resp : Response) :
  sarvam_outcome b64decode key d w t resp -> audio_or_json_error resp.
Proof.
  intros H. destruct H; try (apply jsonify_error_shape; auto).
  left. eauto.
Qed.

(** The answer of [text_to_speech] to an object body, failure by failure. *)
Lemma text_to_speech_outcome (KEY : pystr) (d : gmap pystr pyvalue) (w : World) :
  (truthy (text_of d) = true -> KEY <> [] -> hashable (voice_of d) = true) ->
  exists t resp,
    text_to_speech KEY (json_request d) w = (t, Ok resp) /\ tts_outcome KEY d w t resp.
Proof.
  intros Hvoice. unfold json_request. rewrite text_to_speech_run. cbv zeta.
  fold (text_of d) (voice_of d).
  destruct (truthy (text_of d)) eqn:Ht; cbn [negb].
  2:{ do 2 eexists. split; [reflexivity|]. apply tts_no_text. exact Ht. }
  destruct (truthy (PStr KEY)) eqn:Hk; cbn [negb].
  2:{ do 2 eexists. split; [reflexivity|]. apply tts_no_key; [exact Ht|].
      apply truthy_str. exact Hk. }
  apply truthy_str_true in Hk. specialize (Hvoice eq_refl Hk).
  destruct (dict_get_hashable VOICES _ rachel_id Hvoice) as [voice_id Hget].
  rewrite Hget.
  destruct (py_slice_to (slices_hash w) (text_of d) 1000) as [sliced|e] eqn:Hs.
  2:{ do 2 eexists. split; [reflexivity|]. apply tts_slice_raises; assumption. }
  assert (Hcall : tts_calls KEY d w (elevenlabs_call KEY voice_id sliced)).
  { split; [exact Ht|]. split; [exact Hk|]. exists voice_id, sliced. auto. }
  unfold elevenlabs_answer.
  destruct (requests_post w _) as [response|e] eqn:Hup.
  2:{ do 2 eexists. split; [reflexivity|]. apply (tts_post_raises _ _ _ _ _ Hcall Hup). }
  destruct (Z.eqb_spec (status_code response) 200) as [Hc|Hc]; cbn [negb].
  - do 2 eexists. split; [reflexivity|]. apply (tts_audio _ _ _ _ _ Hcall Hup Hc).
  - do 2 eexists. split; [reflexivity|].
    apply (tts_upstream_status _ _ _ _ _ Hcall Hup Hc).
Qed.

Lemma sarvam_decode_first_item (b64decode : pyvalue -> Result bytes)
    (response : upstream_response) :
  sarvam_decode b64decode response
  = match first_audio_item response with
    | Raise e => Raise e
    | Ok item =>
        if truthy item
        then match b64decode item with
             | Raise e => Raise e
             | Ok audio_bytes => Ok (make_response audio_bytes (py "audio/wav") ∅)
             end
        else Ok (jsonify (error_dict (py "No audio returned")) 500)
    end.
Proof.
  unfold sarvam_decode, first_audio_item.
  destruct (response_json response) as [envelope|e]; [|reflexivity].
  destruct (py_get envelope _ _) as [audios|e]; reflexivity.
Qed.

(** The answer of [sarvam_tts] to an object body, failure by failure, once
    its key is loaded. *)
Lemma sarvam_tts_outcome (b64decode : pyvalue -> Result bytes)
    (d : gmap pystr pyvalue) (w : World) (t0 : list event) (key : pystr) :
  load_key (py "VITE_SARVAM_API_KEY") w = (t0, Ok key) ->
  exists t resp,
    sarvam_tts b64decode (json_request d) w = (t0 ++ t, Ok resp)
    /\ sarvam_outcome b64decode key d w t resp.
Proof.
  intros Hload. unfold json_request. rewrite (sarvam_tts_run _ _ _ _ _ Hload). cbv zeta.
  fold (text_of d) (language_of d).
  destruct (truthy (PStr key)) eqn:Hk; cbn [negb].
  2:{ exists [], (jsonify (error_dict (py "Sarvam API key not configured")) 500).
      rewrite app_nil_r. split; [reflexivity|]. apply sarvam_no_key.
      apply truthy_str. exact Hk. }
  apply truthy_str_true in Hk.
  destruct (truthy (text_of d)) eqn:Ht; cbn [negb].
  2:{ exists [], (jsonify (error_dict (py "No text provided")) 400).
      rewrite app_nil_r. split; [reflexivity|]. apply sarvam_no_text; assumption. }
  destruct (py_slice_to (slices_hash w) (text_of d) 500) as [sliced|e] eqn:Hs.
  2:{ exists [], (jsonify (error_dict (exn_str e)) 500).
      rewrite app_nil_r. split; [reflexivity|]. apply sarvam_slice_raises; assumption. }
  assert (Hcall : sarvam_calls key d w (sarvam_call key (language_of d) sliced)).
  { split; [exact Hk|]. split; [exact Ht|]. exists sliced. auto. }
  eexists. eexists. split; [reflexivity|].
  unfold sarvam_answer.
  destruct (requests_post w _) as [response|e] eqn:Hup.
  2:{ apply (sarvam_post_raises _ _ _ _ _ _ Hcall Hup). }
  destruct (Z.eqb_spec (status_code response) 200) as [Hc|Hc]; cbn [negb].
  2:{ apply (sarvam_upstream_status _ _ _ _ _ _ Hcall Hup Hc). }
  rewrite sarvam_decode_first_item.
  destruct (first_audio_item response) as [item|e] eqn:Hitem.
  2:{ apply (sarvam_envelope_raises _ _ _ _ _ _ _ Hcall Hup Hc Hitem). }
  destruct (truthy item) eqn:Htruthy.
  2:{ apply (sarvam_no_audio _ _ _ _ _ _ _ Hcall Hup Hc Hitem Htruthy). }
  destruct (b64decode item) as [audio_bytes|e] eqn:Hb64.
  - apply (sarvam_audio _ _ _ _ _ _ _ _ Hcall Hup Hc Hitem Htruthy Hb64).
  - apply (sarvam_b64decode_raises _ _ _ _ _ _ _ _ Hcall Hup Hc Hitem Htruthy Hb64).
Qed.

(** C4, amended: failures are converted to a JSON body [{"error": message}]
    with their status for the requests whose body is a JSON object: on
    [POST /tts] whenever the [voice] is hashable or is not looked up (no
    text, no key), on [POST /tts/sarvam] whenever loading the key does not
    raise.  The answer is then 400 "No text provided", 500 with the
    configuration error, 500 with [str] of the exception raised inside the
    [try] (by the slice, by [requests.post], by the decoding of the
    envelope), 500 with the upstream status, 500 "No audio returned", or the
    audio.  What is raised before the [try] is not caught by the handler:
    the exception of [request.json] on a body it cannot decode, the
    [AttributeError] of [get] on a body that is not an object, on
    [POST /tts] the [TypeError] of the lookup of an unhashable voice, on
    [POST /tts/sarvam] the exception of loading the key, which is what
    [open] raises other than [FileNotFoundError] or what reading [.env]
    raises before a line of the key is met. *)
Theorem failures_are_json (b64decode : pyvalue -> Result bytes) (KEY : pystr) (w : World) :
  (forall d,
     (truthy (text_of d) = true -> KEY <> [] -> hashable (voice_of d) = true) ->
     exists t resp,
       handle b64decode KEY POST_tts (json_request d) w = (t, Ok resp)
       /\ tts_outcome KEY d w t resp /\ audio_or_json_error resp)
  /\ (forall d t0 key,
     load_key SARVAM_NAME w = (t0, Ok key) ->
     exists t resp,
       handle b64decode KEY POST_tts_sarvam (json_request d) w = (t0 ++ t, Ok resp)
       /\ sarvam_outcome b64decode key d w t resp /\ audio_or_json_error resp)
  /\ (forall e,
     handle b64decode KEY POST_tts {| request_json := Raise e |} w = ([], Raise e))
  /\ (forall v, (forall d, v <> PDict d) ->
     handle b64decode KEY POST_tts {| request_json := Ok v |} w
     = ([], Raise (AttributeError ("'" ++ type_name v ++ "' object has no attribute 'get'"))))
  /\ (forall d,
     truthy (text_of d) = true -> KEY <> [] -> hashable (voice_of d) = false ->
     handle b64decode KEY POST_tts (json_request d) w
     = ([], Raise (TypeError ("unhashable type: '" ++ type_name (voice_of d) ++ "'"))))
  /\ (forall request t0 e,
     load_key SARVAM_NAME w = (t0, Raise e) ->
     handle b64decode KEY POST_tts_sarvam request w = (t0, Raise e))
  /\ (forall t0 key e,
     load_key SARVAM_NAME w = (t0, Ok key) -> key <> [] ->
     handle b64decode KEY POST_tts_sarvam {| request_json := Raise e |} w = (t0, Raise e))
  /\ (forall t0 key v,
     load_key SARVAM_NAME w = (t0, Ok key) -> key <> [] -> (forall d, v <> PDict d) ->
     handle b64decode KEY POST_tts_sarvam {| request_json := Ok v |} w
     = (t0, Raise (AttributeError ("'" ++ type_name v ++ "' object has no attribute 'get'"))))
  /\ (forall e,
     default [] (environ w !! SARVAM_NAME) = [] ->
     dotenv w = Raise e -> exn_class e <> "FileNotFoundError"%string ->
     load_key SARVAM_NAME w = ([EnvironGet SARVAM_NAME; Open (py ".env")], Raise e))
  /\ (forall f e,
     default [] (environ w !! SARVAM_NAME) = [] ->
     dotenv w = Ok f ->
     Forall (fun l => startswith (SARVAM_NAME ++ py "=") l = false) (file_lines f) ->
     file_error f = Some e -> exn_class e <> "FileNotFoundError"%string ->
     load_key SARVAM_NAME w = ([EnvironGet SARVAM_NAME; Open (py ".env")], Raise e)).
Proof.
  cbn [handle]. repeat apply conj.
  - intros d Hvoice.
    destruct (text_to_speech_outcome KEY d w Hvoice) as (t & resp & Hrun & Hout).
    exists t, resp. split; [exact Hrun|]. split; [exact Hout|].
    exact (tts_outcome_shape _ _ _ _ _ Hout).
  - intros d t0 key Hload.
    destruct (sarvam_tts_outcome b64decode d w t0 key Hload) as (t & resp & Hrun & Hout).
    exists t, resp. split; [exact Hrun|]. split; [exact Hout|].
    exact (sarvam_outcome_shape _ _ _ _ _ _ Hout).
  - intros e. apply text_to_speech_bad_body.
  - intros v Hv. apply text_to_speech_not_dict. exact Hv.
  - intros d. apply text_to_speech_unhashable_voice.
  - intros request t0 e. apply sarvam_tts_load_raises.
  - intros t0 key e. apply sarvam_tts_bad_body.
  - intros t0 key v. apply sarvam_tts_not_dict.
  - intros e. apply load_key_unreadable.
  - intros f e. apply load_key_file_fails.
Qed.

Lemma failures_are_json_witness :
  (exists t resp,
     handle b64decode_rejecting (py "el-key") POST_tts
       (json_request {[ py "text" := PInt 7 ]})
       (world_undecodable (answering 200 [] not_json)) = (t, Ok resp)
     /\ tts_outcome (py "el-key") {[ py "text" := PInt 7 ]}
          (world_undecodable (answering 200 [] not_json)) t resp
     /\ audio_or_json_error resp)
  /\ handle b64decode_rejecting (py "el-key") POST_tts_sarvam
       (json_request {[ py "text" := PStr (py "namaste") ]})
       (world_undecodable (answering 200 [] not_json))
     = ([EnvironGet SARVAM_NAME; Open (py ".env")],
        Raise (Exn "UnicodeDecodeError"
                 (py "'utf-8' codec can't decode byte 0xff in position 7: invalid start byte"))).
Proof.
  destruct (failures_are_json b64decode_rejecting (py "el-key")
              (world_undecodable (answering 200 [] not_json)))
    as (Htts & _ & _ & _ & _ & Hload & _ & _ & _ & Hfile).
  split.
  - apply Htts. intros _ _. vm_compute. reflexivity.
  - apply Hload. eapply Hfile.
    + vm_compute. reflexivity.
    + reflexivity.
    + vm_compute. repeat constructor.
    + reflexivity.
    + discriminate.
Defined.

(** ** The envelope of the Sarvam response (C3) *)

Section Envelope.

Variable b64decode : pyvalue -> Result bytes.

(** An envelope without [audios], or whose first audio item is falsy (an
    empty string, [null]), is answered with "No audio returned". *)
Lemma sarvam_no_audio_item (response : upstream_response) (envelope : gmap pystr pyvalue) :
  status_code response = 200 ->
  response_json response = Ok (PDict envelope) ->
  (envelope !! py "audios" = None
   \/ exists item rest, envelope !! py "audios" = Some (PList (item :: rest))
                        /\ truthy item = false) ->
  sarvam_answer b64decode (Ok response)
  = jsonify (error_dict (py "No audio returned")) 500.
Proof.
  intros Hcode Hjson Haudios. unfold sarvam_answer, sarvam_decode.
  rewrite Hcode, Hjson. cbn [Z.eqb Pos.eqb negb]. unfold py_get.
  destruct Haudios as [->|(item & rest & -> & Hitem)].
  - reflexivity.
  - change (py_item0 (default (PList [PDict ∅]) (Some (PList (item :: rest)))))
      with (Ok (A:=pyvalue) item).
    cbv iota beta. rewrite Hitem. reflexivity.
Qed.

(** An envelope whose [audios] is the empty list makes [audios[0]] raise;
    the answer is the message of the [IndexError]. *)
Lemma sarvam_empty_audios (response : upstream_response) (envelope : gmap pystr pyvalue) :
  status_code response = 200 ->
  response_json response = Ok (PDict envelope) ->
  envelope !! py "audios" = Some (PList []) ->
  sarvam_answer b64decode (Ok response)
  = jsonify (error_dict (py "list index out of range")) 500.
Proof.
  intros Hcode Hjson Haudios. unfold sarvam_answer, sarvam_decode.
  rewrite Hcode, Hjson. cbn [Z.eqb Pos.eqb negb]. unfold py_get.
  rewrite Haudios. reflexivity.
Qed.

(** C3: [POST /tts/sarvam] with the body [{"text": "namaste"}] and the key
    configured, when the upstream answers 200 with the envelope
    [{"audios": []}], answers 500 with
    [{"error": "list index out of range"}], not with
    [{"error": "No audio returned"}]. *)
Theorem sarvam_empty_audios_list :
  sarvam_tts b64decode (json_request {[ py "text" := PStr (py "namaste") ]})
    (world_env (answering 200 [] (Ok (PDict {[ py "audios" := PList [] ]}))))
  = ([EnvironGet SARVAM_NAME;
      Post (sarvam_call (py "sv-key") (PStr (py "en-IN")) (PStr (py "namaste")))],
     Ok (jsonify (error_dict (py "list index out of range")) 500)).
Proof. vm_compute. reflexivity. Qed.

End Envelope.

(** * Further properties of the handlers *)

(** ** A key that is not configured *)

(** X1: A process that found no ElevenLabs key at startup stays unconfigured:
    whatever the environment and [.env] are when a request arrives,
    [POST /tts] with a text answers 500 with the configuration error, without
    looking up the voice and without an upstream call, and [GET /health]
    reports [false]. *)
Theorem unconfigured_at_startup_stays (b64decode : pyvalue -> Result bytes)
    (w0 w : World) (t0 : list event) (d : gmap pystr pyvalue) (request : Request) :
  startup w0 = (t0, Ok []) -> truthy (text_of d) = true ->
  handle b64decode [] POST_tts (json_request d) w
  = ([], Ok (jsonify (error_dict (py "ElevenLabs API key not configured")) 500))
  /\ handle b64decode [] GET_health request w
     = ([], Ok (jsonify (list_to_map
                  [ (py "status", PStr (py "ok"));
                    (py "elevenlabs_configured", PBool false) ]) 200)).
Proof.
  intros _ Htext. split; [|reflexivity].
  cbn [handle]. unfold json_request. rewrite text_to_speech_run. cbv zeta.
  fold (text_of d). rewrite Htext. reflexivity.
Qed.

Lemma unconfigured_at_startup_stays_witness :
  startup (world_bare timing_out) = ([EnvironGet ELEVENLABS_NAME; Open (py ".env")], Ok [])
  /\ truthy (text_of {[ py "text" := PStr (py "hello") ]}) = true
  /\ handle b64decode_rejecting [] POST_tts
       (json_request {[ py "text" := PStr (py "hello") ]})
       (world_env (answering 200 [] not_json))
     = ([], Ok (jsonify (error_dict (py "ElevenLabs API key not configured")) 500)).
Proof.
  assert (Hstart : startup (world_bare timing_out)
                   = ([EnvironGet ELEVENLABS_NAME; Open (py ".env")], Ok []))
    by (vm_compute; reflexivity).
  assert (Htext : truthy (text_of {[ py "text" := PStr (py "hello") ]}) = true)
    by (vm_compute; reflexivity).
  split; [exact Hstart|]. split; [exact Htext|].
  exact (proj1 (unconfigured_at_startup_stays b64decode_rejecting _
                  (world_env (answering 200 [] not_json)) _ _
                  (json_request ∅) Hstart Htext)).
Defined.

(** X2: When the Sarvam key resolves to the empty string, [POST /tts/sarvam]
    answers 500 with the configuration error for every request, also one
    whose body cannot be decoded or is not an object: the body is read only
    after the key check. *)
Theorem sarvam_unconfigured_any_body (b64decode : pyvalue -> Result bytes)
    (KEY : pystr) (request : Request) (w : World) (t0 : list event) :
  load_key SARVAM_NAME w = (t0, Ok []) ->
  handle b64decode KEY POST_tts_sarvam request w
  = (t0, Ok (jsonify (error_dict (py "Sarvam API key not configured")) 500))
  /\ count_posts t0 = 0%nat.
Proof.
  intros Hload. split.
  - cbn [handle]. apply sarvam_tts_unconfigured. exact Hload.
  - destruct (load_key_cases SARVAM_NAME w) as [(v & _ & Hl)|(r & Hl & _)];
      rewrite Hl in Hload; injection Hload as <- _; reflexivity.
Qed.

Lemma sarvam_unconfigured_any_body_witness :
  load_key SARVAM_NAME (world_bare timing_out)
  = ([EnvironGet SARVAM_NAME; Open (py ".env")], Ok [])
  /\ handle b64decode_rejecting [] POST_tts_sarvam
       {| request_json := Raise (Exn "BadRequest" (py "400 Bad Request")) |}
       (world_bare timing_out)
     = ([EnvironGet SARVAM_NAME; Open (py ".env")],
        Ok (jsonify (error_dict (py "Sarvam API key not configured")) 500)).
Proof.
  assert (Hload : load_key SARVAM_NAME (world_bare timing_out)
                  = ([EnvironGet SARVAM_NAME; Open (py ".env")], Ok []))
    by (vm_compute; reflexivity).
  split; [exact Hload|].
  exact (proj1 (sarvam_unconfigured_any_body b64decode_rejecting [] _ _ _ Hload)).
Defined.

(** ** The voice in the upstream URL *)

Lemma dict_get_in_catalog (k : pyvalue) (id : pystr) :
  dict_get VOICES k rachel_id = Ok id -> exists name, VOICES !! name = Some id.
Proof.
  assert (Hr : VOICES !! py "rachel" = Some rachel_id) by (vm_compute; reflexivity).
  destruct k as [|b|n|m e|s|l|dv]; unfold dict_get; intros H; try discriminate H;
    try (injection H as <-; exists (py "rachel"); exact Hr).
  destruct (VOICES !! s) as [x|] eqn:Hs; cbn [default] in H; injection H as <-; eauto.
Qed.

(** X3: Whatever the client sends as [voice], the upstream call of [POST /tts]
    is addressed to one of the identifiers of the catalog; a name of the
    catalog is addressed to its own identifier. *)
Theorem upstream_voice_from_catalog (KEY : pystr) (d : gmap pystr pyvalue)
    (w : World) (q : upstream_request) :
  In (Post q) (fst (text_to_speech KEY (json_request d) w)) ->
  (exists name id,
     VOICES !! name = Some id
     /\ req_url q = py "https://api.elevenlabs.io/v1/text-to-speech/" ++ id)
  /\ (forall name id,
        d !! py "voice" = Some (PStr name) -> VOICES !! name = Some id ->
        req_url q = py "https://api.elevenlabs.io/v1/text-to-speech/" ++ id).
Proof.
  intros Hq.
  destruct (text_to_speech_post KEY d w q Hq)
    as (voice_id & sliced & _ & _ & Hget & _ & -> & _).
  split.
  - destruct (dict_get_in_catalog _ _ Hget) as [name Hname].
    exists name, voice_id. split; [exact Hname|reflexivity].
  - intros name id Hvoice Hname. unfold voice_of in Hget. rewrite Hvoice in Hget.
    change (default (PStr (py "rachel")) (Some (PStr name))) with (PStr name) in Hget.
    unfold dict_get in Hget. rewrite Hname in Hget. injection Hget as <-. reflexivity.
Qed.

Lemma upstream_voice_from_catalog_witness :
  In (Post (elevenlabs_call (py "el-key") (py "pNInz6obpgDQGcFmaJgB") (PStr (py "hello"))))
     (fst (text_to_speech (py "el-key")
             (json_request (list_to_map
                [ (py "text", PStr (py "hello")); (py "voice", PStr (py "adam")) ]))
             (world_env (answering 200 [] not_json))))
  /\ req_url (elevenlabs_call (py "el-key") (py "pNInz6obpgDQGcFmaJgB") (PStr (py "hello")))
     = py "https://api.elevenlabs.io/v1/text-to-speech/" ++ py "pNInz6obpgDQGcFmaJgB".
Proof.
  assert (Hq : In (Post (elevenlabs_call (py "el-key") (py "pNInz6obpgDQGcFmaJgB")
                           (PStr (py "hello"))))
                  (fst (text_to_speech (py "el-key")
                          (json_request (list_to_map
                             [ (py "text", PStr (py "hello")); (py "voice", PStr (py "adam")) ]))
                          (world_env (answering 200 [] not_json)))))
    by (vm_compute; left; reflexivity).
  split; [exact Hq|].
  apply (proj2 (upstream_voice_from_catalog _ _ _ _ Hq) (py "adam")).
  - vm_compute. reflexivity.
  - vm_compute. reflexivity.
Defined.

(** ** A fault of the transport *)

(** X4: When [requests.post] raises (timeout, connection error), both routes
    answer 500 with [str] of the exception as the error message. *)
Theorem transport_fault_500 (b64decode : pyvalue -> Result bytes) (KEY : pystr)
    (d : gmap pystr pyvalue) (w : World) (q : upstream_request) (e : exn) :
  requests_post w q = Raise e ->
  (In (Post q) (fst (text_to_speech KEY (json_request d) w)) ->
     text_to_speech KEY (json_request d) w
     = ([Post q], Ok (jsonify (error_dict (exn_str e)) 500)))
  /\ (In (Post q) (fst (sarvam_tts b64decode (json_request d) w)) ->
     snd (sarvam_tts b64decode (json_request d) w)
     = Ok (jsonify (error_dict (exn_str e)) 500)).
Proof.
  intros Hup. split; intros Hq.
  - destruct (text_to_speech_post KEY d w q Hq)
      as (voice_id & sliced & _ & _ & _ & _ & _ & ->).
    rewrite Hup. reflexivity.
  - destruct (sarvam_tts_post b64decode d w q Hq)
      as (t0 & key & sliced & _ & _ & _ & _ & _ & ->).
    rewrite Hup. reflexivity.
Qed.

Lemma transport_fault_500_witness :
  requests_post (world_env timing_out)
    (elevenlabs_call (py "el-key") rachel_id (PStr (py "hello")))
  = Raise (Exn "ReadTimeout" (py "Read timed out. (read timeout=30)"))
  /\ text_to_speech (py "el-key") (json_request {[ py "text" := PStr (py "hello") ]})
       (world_env timing_out)
     = ([Post (elevenlabs_call (py "el-key") rachel_id (PStr (py "hello")))],
        Ok (jsonify (error_dict (py "Read timed out. (read timeout=30)")) 500)).
Proof.
  split; [reflexivity|].
  apply (proj1 (transport_fault_500 b64decode_rejecting (py "el-key")
                  {[ py "text" := PStr (py "hello") ]} (world_env timing_out)
                  (elevenlabs_call (py "el-key") rachel_id (PStr (py "hello")))
                  (Exn "ReadTimeout" (py "Read timed out. (read timeout=30)")) eq_refl)).
  vm_compute. left. reflexivity.
Defined.

(** ** The number of upstream calls *)

Lemma count_posts_app (t t' : list event) :
  count_posts (t ++ t') = (count_posts t + count_posts t')%nat.
Proof. unfold count_posts. rewrite List.filter_app, length_app. reflexivity. Qed.

Lemma count_posts_load_key (name : pystr) (w : World) :
  count_posts (fst (load_key name w)) = 0%nat.
Proof.
  destruct (load_key_cases name w) as [(v & _ & ->)|(r & -> & _)]; reflexivity.
Qed.

(** X5: No retries: a request makes at most one upstream call, whatever its
    body; [GET /health] makes none, and neither does a synthesis request
    whose text is empty or missing. *)
Theorem at_most_one_upstream_call (b64decode : pyvalue -> Result bytes) (KEY : pystr)
    (r : route) (request : Request) (w : World) :
  (count_posts (fst (handle b64decode KEY r request w)) <= 1)%nat
  /\ (r = GET_health -> count_posts (fst (handle b64decode KEY r request w)) = 0%nat)
  /\ (forall d, request = json_request d -> truthy (text_of d) = false ->
        count_posts (fst (handle b64decode KEY r request w)) = 0%nat).
Proof.
  split; [|split].
  - destruct r; cbn [handle].
    + destruct (text_to_speech_trace KEY request w) as [->|(voice_id & sliced & ->)];
        cbn; lia.
    + destruct (sarvam_tts_trace b64decode request w) as (t' & -> & Hcases).
      rewrite count_posts_app, count_posts_load_key.
      destruct Hcases as [->|(key & language & sliced & _ & ->)]; cbn; lia.
    + cbn. lia.
  - intros ->. reflexivity.
  - intros d -> Htext. destruct r; cbn [handle]; [| |reflexivity].
    + unfold json_request. rewrite text_to_speech_run. cbv zeta.
      fold (text_of d). rewrite Htext. reflexivity.
    + pose proof (count_posts_load_key (py "VITE_SARVAM_API_KEY") w) as Hcount.
      destruct (load_key (py "VITE_SARVAM_API_KEY") w) as [t0 [key|e]] eqn:Hload;
        cbn [fst] in Hcount.
      * unfold json_request. rewrite (sarvam_tts_run _ _ _ _ _ Hload). cbv zeta.
        fold (text_of d). rewrite Htext. cbn [negb].
        destruct (negb (truthy (PStr key))); exact Hcount.
      * rewrite (sarvam_tts_load_raises _ _ _ _ _ Hload). exact Hcount.
Qed.

(** ** The first audio item of the Sarvam envelope *)

(** X6: When the upstream answers [POST /tts/sarvam] with status 200 and an
    envelope whose [audios] list starts with a truthy item, that item alone
    is decoded: the answer is 200 with the decoded bytes as [audio/wav], or
    500 with the message of the exception that [b64decode] raises; the other
    items are ignored. *)
Theorem sarvam_first_audio_item (b64decode : pyvalue -> Result bytes)
    (d : gmap pystr pyvalue) (w : World) (q : upstream_request)
    (response : upstream_response) (envelope : gmap pystr pyvalue)
    (item : pyvalue) (rest : list pyvalue) :
  In (Post q) (fst (sarvam_tts b64decode (json_request d) w)) ->
  requests_post w q = Ok response ->
  status_code response = 200 ->
  response_json response = Ok (PDict envelope) ->
  envelope !! py "audios" = Some (PList (item :: rest)) ->
  truthy item = true ->
  snd (sarvam_tts b64decode (json_request d) w)
  = Ok (match b64decode item with
        | Ok audio_bytes =>
            {| status := 200; mimetype := py "audio/wav"; headers := ∅;
               body := Binary audio_bytes |}
        | Raise e => jsonify (error_dict (exn_str e)) 500
        end).
Proof.
  intros Hq Hup Hcode Hjson Haudios Hitem.
  destruct (sarvam_tts_post b64decode d w q Hq)
    as (t0 & key & sliced & _ & _ & _ & _ & _ & ->).
  cbn [snd]. rewrite Hup. unfold sarvam_answer, sarvam_decode.
  rewrite Hcode, Hjson. cbn [Z.eqb Pos.eqb negb]. unfold py_get. rewrite Haudios.
  change (py_item0 (default (PList [PDict ∅]) (Some (PList (item :: rest)))))
    with (Ok (A:=pyvalue) item).
  cbv iota beta. rewrite Hitem.
  destruct (b64decode item); reflexivity.
Qed.

Lemma sarvam_first_audio_item_witness :
  requests_post
    (world_env (answering 200 []
       (Ok (PDict {[ py "audios" := PList [PStr (py "UklGRg=="); PStr (py "AAAA")] ]}))))
    (sarvam_call (py "sv-key") (PStr (py "hi-IN")) (PStr (py "namaste")))
  = Ok {| status_code := 200; content := [];
          response_json :=
            Ok (PDict {[ py "audios" := PList [PStr (py "UklGRg=="); PStr (py "AAAA")] ]}) |}
  /\ snd (sarvam_tts b64decode_empty
            (json_request (list_to_map
               [ (py "text", PStr (py "namaste")); (py "language", PStr (py "hi-IN")) ]))
            (world_env (answering 200 []
               (Ok (PDict {[ py "audios" := PList [PStr (py "UklGRg=="); PStr (py "AAAA")] ]})))))
     = Ok {| status := 200; mimetype := py "audio/wav"; headers := ∅; body := Binary [] |}.
Proof.
  split; [reflexivity|].
  apply (sarvam_first_audio_item b64decode_empty
           (list_to_map [ (py "text", PStr (py "namaste")); (py "language", PStr (py "hi-IN")) ])
           (world_env (answering 200 []
              (Ok (PDict {[ py "audios" := PList [PStr (py "UklGRg=="); PStr (py "AAAA")] ]}))))
           (sarvam_call (py "sv-key") (PStr (py "hi-IN")) (PStr (py "namaste")))
           {| status_code := 200; content := [];
              response_json :=
                Ok (PDict {[ py "audios" := PList [PStr (py "UklGRg=="); PStr (py "AAAA")] ]}) |}
           {[ py "audios" := PList [PStr (py "UklGRg=="); PStr (py "AAAA")] ]}
           (PStr (py "UklGRg==")) [PStr (py "AAAA")]).
  - vm_compute. right. left. reflexivity.
  - reflexivity.
  - reflexivity.
  - reflexivity.
  - vm_compute. reflexivity.
  - reflexivity.
Defined.

(** ** When the answer is 400 *)

Lemma sarvam_answer_not_400 (b64decode : pyvalue -> Result bytes)
    (r : Result upstream_response) :
  status (sarvam_answer b64decode r) <> 400.
Proof.
  destruct r as [response|e]; unfold sarvam_answer; [|cbn [status jsonify]; lia].
  destruct (negb (status_code response =? 200)); [cbn [status jsonify]; lia|].
  unfold sarvam_decode.
  destruct (response_json response) as [envelope|e]; [|cbn [status jsonify]; lia].
  destruct (py_get envelope _ _) as [audios|e]; [|cbn [status jsonify]; lia].
  destruct (py_item0 audios) as [audio_data|e]; [|cbn [status jsonify]; lia].
  destruct (truthy audio_data); [|cbn [status jsonify]; lia].
  destruct (b64decode audio_data) as [audio_bytes|e];
    cbn [status jsonify make_response]; lia.
Qed.

(** X7: For a body that is a JSON object, [POST /tts] answers 400 exactly when
    the text is empty or missing (falsy), and [POST /tts/sarvam] exactly
    when moreover its key is configured. *)
Theorem status_400_iff_no_text (b64decode : pyvalue -> Result bytes) (KEY : pystr)
    (d : gmap pystr pyvalue) (w : World) :
  (forall t resp,
     text_to_speech KEY (json_request d) w = (t, Ok resp) ->
     (status resp = 400 <-> truthy (text_of d) = false))
  /\ (forall t resp,
     sarvam_tts b64decode (json_request d) w = (t, Ok resp) ->
     (status resp = 400
      <-> truthy (text_of d) = false
          /\ exists t0 key, load_key SARVAM_NAME w = (t0, Ok key) /\ key <> [])).
Proof.
  split.
  - intros t resp. unfold json_request. rewrite text_to_speech_run. cbv zeta.
    fold (text_of d). destruct (truthy (text_of d)); cbn [negb].
    2:{ intros H. injection H as _ <-. cbn [status jsonify]. tauto. }
    destruct (negb (truthy (PStr KEY))).
    { intros H. injection H as _ <-. cbn [status jsonify]. split; [lia|discriminate]. }
    destruct (dict_get _ _ _) as [voice_id|e]; [|discriminate].
    destruct (py_slice_to _ _ _) as [sliced|e]; intros H; injection H as _ <-.
    + split; [intros Hc; destruct (elevenlabs_answer_not_400 _ Hc)|discriminate].
    + cbn [status jsonify]. split; [lia|discriminate].
  - intros t resp.
    destruct (load_key (py "VITE_SARVAM_API_KEY") w) as [t0 [key|e]] eqn:Hload.
    2:{ rewrite (sarvam_tts_load_raises _ _ _ _ _ Hload). discriminate. }
    unfold json_request. rewrite (sarvam_tts_run _ _ _ _ _ Hload). cbv zeta.
    fold (text_of d). unfold SARVAM_NAME. rewrite Hload.
    destruct (truthy (PStr key)) eqn:Hkey; cbn [negb].
    2:{ intros H. injection H as _ <-. cbn [status jsonify]. split; [lia|].
        intros (_ & t1 & key1 & Heq & Hne). injection Heq as _ <-.
        apply truthy_str_true in Hne. congruence. }
    apply truthy_str_true in Hkey.
    destruct (truthy (text_of d)); cbn [negb].
    2:{ intros H. injection H as _ <-. cbn [status jsonify]. split; [eauto|reflexivity]. }
    destruct (py_slice_to _ _ _) as [sliced|e]; intros H; injection H as _ <-.
    + split; [intros Hc; destruct (sarvam_answer_not_400 _ _ Hc)|intros [Hc _]; discriminate Hc].
    + cbn [status jsonify]. split; [lia|intros [Hc _]; discriminate Hc].
Qed.

(** ** The fields of the body that matter *)

(** X8: [POST /tts] reads only [text] and [voice] of the body, and
    [POST /tts/sarvam] only [text] and [language]: two bodies that agree on
    these fields get the same events and the same answer. *)
Theorem other_fields_ignored (b64decode : pyvalue -> Result bytes) (KEY : pystr)
    (d1 d2 : gmap pystr pyvalue) (w : World) :
  d1 !! py "text" = d2 !! py "text" ->
  (d1 !! py "voice" = d2 !! py "voice" ->
     text_to_speech KEY (json_request d1) w = text_to_speech KEY (json_request d2) w)
  /\ (d1 !! py "language" = d2 !! py "language" ->
     sarvam_tts b64decode (json_request d1) w = sarvam_tts b64decode (json_request d2) w).
Proof.
  intros Htext. split.
  - intros Hvoice. unfold json_request. rewrite !text_to_speech_run.
    rewrite Htext, Hvoice. reflexivity.
  - intros Hlang.
    destruct (load_key (py "VITE_SARVAM_API_KEY") w) as [t0 [key|e]] eqn:Hload.
    + unfold json_request. rewrite !(sarvam_tts_run _ _ _ _ _ Hload).
      rewrite Htext, Hlang. reflexivity.
    + rewrite !(sarvam_tts_load_raises _ _ _ _ _ Hload). reflexivity.
Qed.

Lemma other_fields_ignored_witness :
  (({[ py "text" := PStr (py "hello") ]} : gmap pystr pyvalue) !! py "text"
   = (list_to_map [ (py "text", PStr (py "hello")); (py "speaker", PStr (py "arvind")) ]
      : gmap pystr pyvalue) !! py "text")
  /\ sarvam_tts b64decode_rejecting (json_request {[ py "text" := PStr (py "hello") ]})
       (world_env timing_out)
     = sarvam_tts b64decode_rejecting
         (json_request (list_to_map
            [ (py "text", PStr (py "hello")); (py "speaker", PStr (py "arvind")) ]))
         (world_env timing_out).
Proof.
  assert (Htext : ({[ py "text" := PStr (py "hello") ]} : gmap pystr pyvalue) !! py "text"
                  = (list_to_map [ (py "text", PStr (py "hello"));
                                   (py "speaker", PStr (py "arvind")) ]
                     : gmap pystr pyvalue) !! py "text")
    by (vm_compute; reflexivity).
  split; [exact Htext|].
  apply (proj2 (other_fields_ignored b64decode_rejecting [] _ _ (world_env timing_out) Htext)).
  vm_compute. reflexivity.
Defined.

(** X9: The upstream call of [POST /tts/sarvam] carries the [language] of the
    body as it is, whatever JSON value it is, and ["en-IN"] when the body
    has none; the speaker is always ["meera"]. *)
Theorem language_forwarded (b64decode : pyvalue -> Result bytes)
    (d : gmap pystr pyvalue) (w : World) (q : upstream_request) :
  In (Post q) (fst (sarvam_tts b64decode (json_request d) w)) ->
  (forall v, d !! py "language" = Some v ->
     req_json q !! py "target_language_code" = Some v)
  /\ (d !! py "language" = None ->
     req_json q !! py "target_language_code" = Some (PStr (py "en-IN")))
  /\ req_json q !! py "speaker" = Some (PStr (py "meera")).
Proof.
  intros Hq.
  destruct (sarvam_tts_post b64decode d w q Hq)
    as (t0 & key & sliced & _ & _ & _ & _ & -> & _).
  assert (Hlang : req_json (sarvam_call key (language_of d) sliced)
                    !! py "target_language_code" = Some (language_of d))
    by reflexivity.
  split; [|split].
  - intros v Hv. rewrite Hlang. unfold language_of. rewrite Hv. reflexivity.
  - intros Hv. rewrite Hlang. unfold language_of. rewrite Hv. reflexivity.
  - reflexivity.
Qed.

Lemma language_forwarded_witness :
  In (Post (sarvam_call (py "sv-key") (PStr (py "en-IN")) (PStr (py "namaste"))))
     (fst (sarvam_tts b64decode_rejecting
             (json_request {[ py "text" := PStr (py "namaste") ]})
             (world_env timing_out)))
  /\ req_json (sarvam_call (py "sv-key") (PStr (py "en-IN")) (PStr (py "namaste")))
       !! py "target_language_code" = Some (PStr (py "en-IN")).
Proof.
  assert (Hq : In (Post (sarvam_call (py "sv-key") (PStr (py "en-IN")) (PStr (py "namaste"))))
                  (fst (sarvam_tts b64decode_rejecting
                          (json_request {[ py "text" := PStr (py "namaste") ]})
                          (world_env timing_out))))
    by (vm_compute; right; left; reflexivity).
  split; [exact Hq|].
  destruct (language_forwarded b64decode_rejecting _ _ _ Hq) as (_ & Hdefault & _).
  apply Hdefault. vm_compute. reflexivity.
Defined.

(** ** What leaves the handlers as an exception *)

(** X10: For a body that [request.json] decodes, [text_to_speech] raises exactly
    when the body is not an object, or when it is one with a truthy text and
    an unhashable voice while the key is configured. *)
Theorem text_to_speech_raises_iff (KEY : pystr) (v : pyvalue) (w : World) :
  (exists e, snd (text_to_speech KEY {| request_json := Ok v |} w) = Raise e)
  <-> (forall d, v <> PDict d)
      \/ (exists d, v = PDict d /\ truthy (text_of d) = true /\ KEY <> []
                    /\ hashable (voice_of d) = false).
Proof.
  split.
  - intros [e He].
    destruct v as [| | | | | |d]; try (left; intros d' Hd'; discriminate Hd').
    right. exists d. split; [reflexivity|].
    rewrite text_to_speech_run in He. cbv zeta in He.
    fold (text_of d) (voice_of d) in He.
    destruct (truthy (text_of d)); cbn [negb snd] in He; [|discriminate He].
    destruct (truthy (PStr KEY)) eqn:Hk; cbn [negb snd] in He; [|discriminate He].
    apply truthy_str_true in Hk.
    destruct (hashable (voice_of d)) eqn:Hh; [|auto].
    destruct (dict_get_hashable VOICES _ rachel_id Hh) as [voice_id Hget].
    rewrite Hget in He.
    destruct (py_slice_to _ _ _); discriminate He.
  - intros [Hv|(d & -> & Ht & Hk & Hh)].
    + rewrite (text_to_speech_not_dict _ _ _ Hv). eauto.
    + change {| request_json := Ok (PDict d) |} with (json_request d).
      rewrite (text_to_speech_unhashable_voice _ _ _ Ht Hk Hh). eauto.
Qed.

(** X11: Loading a key raises exactly when the environment variable is unset
    or empty and either [open] raises, or the file opens and reading it
    raises before a line that starts with [NAME=] is met, in both cases
    something other than a [FileNotFoundError]; it then raises that
    exception.  The body of the loop ([startswith], [split], [[1]],
    [strip]) never raises. *)
Theorem load_key_raises_iff (name : pystr) (w : World) (e : exn) :
  snd (load_key name w) = Raise e
  <-> default [] (environ w !! name) = []
      /\ exn_class e <> "FileNotFoundError"%string
      /\ (dotenv w = Raise e
          \/ exists f, dotenv w = Ok f /\ file_error f = Some e
                       /\ Forall (fun l => startswith (name ++ py "=") l = false)
                                 (file_lines f)).
Proof.
  split.
  - intros He.
    destruct (decide (default [] (environ w !! name) = [])) as [Henv|Henv].
    + split; [exact Henv|].
      destruct (dotenv w) as [f|e'] eqn:Hf.
      * rewrite (load_key_file name f w Henv Hf) in He. cbn [snd] in He.
        destruct (scan_lines_cases name (file_lines f) (file_error f) [])
          as [[k Hk]|(e0 & Herr & Hnone & Hk)]; rewrite Hk in He; [discriminate He|].
        destruct (String.eqb_spec (exn_class e0) "FileNotFoundError") as [Hc|Hc];
          [discriminate He|].
        injection He as <-. split; [exact Hc|]. right. exists f. auto.
      * destruct (decide (exn_class e' = "FileNotFoundError"%string)) as [Hc|Hc].
        -- rewrite (load_key_absent name e' w Henv Hf Hc) in He. discriminate He.
        -- rewrite (load_key_unreadable name e' w Henv Hf Hc) in He.
           injection He as <-. auto.
    + destruct (environ w !! name) as [v|] eqn:Hv; [|contradiction].
      rewrite (load_key_environ name v w Hv Henv) in He. discriminate He.
  - intros (Henv & Hc & [Hf|(f & Hf & Herr & Hnone)]).
    + rewrite (load_key_unreadable name e w Henv Hf Hc). reflexivity.
    + rewrite (load_key_file_fails name f e w Henv Hf Hnone Herr Hc). reflexivity.
Qed.

(** A [.env] that opens but cannot be decoded makes the loading raise. *)
Example load_key_undecodable :
  load_key SARVAM_NAME (world_undecodable timing_out)
  = ([EnvironGet SARVAM_NAME; Open (py ".env")],
     Raise (Exn "UnicodeDecodeError"
              (py "'utf-8' codec can't decode byte 0xff in position 7: invalid start byte"))).
Proof. vm_compute. reflexivity. Qed.

(** ** The value taken from [.env] *)

Lemma lstrip_begins (s s' : pystr) (c : N) :
  lstrip s = c :: s' -> isspace c = false.
Proof.
  induction s as [|c0 s IH]; simpl; [discriminate|].
  destruct (isspace c0) eqn:Hc0; [exact IH|].
  intros H. injection H as <- _. exact Hc0.
Qed.

Lemma lstrip_suffix (s : pystr) : exists p, s = p ++ lstrip s.
Proof.
  induction s as [|c s [p IH]]; simpl; [exists []; reflexivity|].
  destruct (isspace c).
  - exists (c :: p). simpl. f_equal. exact IH.
  - exists []. reflexivity.
Qed.

Lemma lstrip_blank (s : pystr) :
  Forall (fun c => isspace c = true) s -> lstrip s = [].
Proof.
  induction 1 as [|c s Hc _ IH]; simpl; [reflexivity|]. rewrite Hc. exact IH.
Qed.

Lemma rstrip_ends (s s' : pystr) (c : N) :
  rstrip s = s' ++ [c] -> isspace c = false.
Proof.
  unfold rstrip. intros H. apply (f_equal (@rev N)) in H.
  rewrite rev_involutive, rev_unit in H.
  exact (lstrip_begins _ _ _ H).
Qed.

Lemma strip_trimmed (s : pystr) :
  (forall c s', strip s = c :: s' -> isspace c = false)
  /\ (forall s' c, strip s = s' ++ [c] -> isspace c = false).
Proof.
  unfold strip. split.
  - intros c s'. apply lstrip_begins.
  - intros s' c H. destruct (lstrip_suffix (rstrip s)) as [p Hp].
    rewrite H, app_assoc in Hp. exact (rstrip_ends _ _ _ Hp).
Qed.

Lemma strip_blank (s : pystr) :
  Forall (fun c => isspace c = true) s -> strip s = [].
Proof.
  intros Hs. unfold strip, rstrip.
  rewrite (lstrip_blank (rev s)) by (apply List.Forall_rev; exact Hs). reflexivity.
Qed.

Lemma scan_lines_result (prefix : pystr) (lines : list pystr)
    (failure : option exn) (key0 k : pystr) :
  scan_lines prefix lines failure key0 = Ok k -> k = key0 \/ exists v, k = strip v.
Proof.
  induction lines as [|line rest IH];
    [simpl; destruct failure; intros H; [discriminate H|injection H as <-; auto]|].
  rewrite scan_lines_cons. destruct (startswith prefix line); [|exact IH].
  destruct (item1 _) as [v|e]; intros H; [|discriminate H].
  injection H as <-. eauto.
Qed.

(** X12: A key that comes from [.env] neither begins nor ends with whitespace:
    the end of line and the blanks around the value are removed. *)
Theorem file_key_trimmed (name : pystr) (w : World) (t : list event) (key : pystr) :
  default [] (environ w !! name) = [] ->
  load_key name w = (t, Ok key) ->
  (forall c s', key = c :: s' -> isspace c = false)
  /\ (forall s' c, key = s' ++ [c] -> isspace c = false).
Proof.
  intros Henv Hload.
  assert (Hkey : key = [] \/ exists v, key = strip v).
  { destruct (dotenv w) as [f|e] eqn:Hf.
    - rewrite (load_key_file name f w Henv Hf) in Hload.
      destruct (scan_lines _ _ _ _) as [k|e0] eqn:Hscan.
      + injection Hload as _ <-. exact (scan_lines_result _ _ _ _ _ Hscan).
      + destruct (String.eqb (exn_class e0) "FileNotFoundError");
          [injection Hload as _ <-; auto|discriminate Hload].
    - destruct (decide (exn_class e = "FileNotFoundError"%string)) as [Hc|Hc].
      + rewrite (load_key_absent name e w Henv Hf Hc) in Hload.
        injection Hload as _ <-. auto.
      + rewrite (load_key_unreadable name e w Henv Hf Hc) in Hload. discriminate Hload. }
  destruct Hkey as [->|[v ->]].
  - split; [intros c s' H; discriminate H|].
    intros s' c H. destruct s'; discriminate H.
  - apply strip_trimmed.
Qed.

Lemma file_key_trimmed_witness :
  default [] (environ (world_file timing_out) !! SARVAM_NAME) = []
  /\ load_key SARVAM_NAME (world_file timing_out)
     = ([EnvironGet SARVAM_NAME; Open (py ".env")], Ok (py "sv-file"))
  /\ forall c s', py "sv-file" = c :: s' -> isspace c = false.
Proof.
  assert (Henv : default [] (environ (world_file timing_out) !! SARVAM_NAME) = [])
    by (vm_compute; reflexivity).
  assert (Hload : load_key SARVAM_NAME (world_file timing_out)
                  = ([EnvironGet SARVAM_NAME; Open (py ".env")], Ok (py "sv-file")))
    by (vm_compute; reflexivity).
  split; [exact Henv|]. split; [exact Hload|].
  exact (proj1 (file_key_trimmed _ _ _ _ Henv Hload)).
Defined.

(** X13: The first line that starts with [NAME=] decides, also when its value is
    blank: the key is then empty (unconfigured), and later lines with the
    same name are not consulted. *)
Theorem blank_value_unconfigured (name value : pystr) (pre post : list pystr)
    (f : text_file) (w : World) :
  ~ In 61%N name ->
  default [] (environ w !! name) = [] ->
  dotenv w = Ok f ->
  file_lines f = pre ++ (name ++ py "=" ++ value) :: post ->
  Forall (fun l => startswith (name ++ py "=") l = false) pre ->
  Forall (fun c => isspace c = true) value ->
  load_key name w = ([EnvironGet name; Open (py ".env")], Ok []).
Proof.
  intros Hname Henv Hf Hlines Hpre Hblank.
  rewrite (load_key_file_found name value pre post f w Hname Henv Hf Hlines Hpre).
  rewrite (strip_blank value Hblank). reflexivity.
Qed.

Lemma blank_value_unconfigured_witness :
  ~ In 61%N ELEVENLABS_NAME
  /\ startup (world_file_elevenlabs timing_out)
     = ([EnvironGet ELEVENLABS_NAME; Open (py ".env")], Ok []).
Proof.
  assert (Hname : ~ In 61%N ELEVENLABS_NAME) by (vm_compute; intuition discriminate).
  split; [exact Hname|].
  apply (blank_value_unconfigured ELEVENLABS_NAME (py "   " ++ [10%N]) []
           [py "VITE_ELEVENLABS_API_KEY=el-second" ++ [10%N]]
           (readable [ py "VITE_ELEVENLABS_API_KEY=   " ++ [10%N];
                       py "VITE_ELEVENLABS_API_KEY=el-second" ++ [10%N] ])
           (world_file_elevenlabs timing_out) Hname).
  - reflexivity.
  - reflexivity.
  - reflexivity.
  - constructor.
  - vm_compute. repeat constructor.
Defined.

(** ** Lines of [.env] for other variables *)

Lemma first_separator_unique (x : N) (a a' b b' : pystr) :
  ~ In x a -> ~ In x a' -> a ++ x :: b = a' ++ x :: b' -> a = a'.
Proof.
  revert a'. induction a as [|c a IH]; intros a' Ha Ha' H.
  - destruct a' as [|c' a']; [reflexivity|].
    simpl in H. injection H as <- _. exfalso. apply Ha'. left. reflexivity.
  - destruct a' as [|c' a'].
    + simpl in H. injection H as -> _. exfalso. apply Ha. left. reflexivity.
    + simpl in H. injection H as <- H. f_equal.
      apply (IH a'); [| |exact H]; intros Hin; [apply Ha|apply Ha']; right; exact Hin.
Qed.

Lemma startswith_other_name (name other v : pystr) :
  ~ In 61%N name -> ~ In 61%N other -> other <> name ->
  startswith (name ++ py "=") (other ++ py "=" ++ v) = false.
Proof.
  intros Hname Hother Hne.
  destruct (startswith (name ++ py "=") (other ++ py "=" ++ v)) eqn:Hs; [|reflexivity].
  apply startswith_inv in Hs as [s Hs]. rewrite <- app_assoc in Hs.
  change (py "=" ++ v) with (61%N :: v) in Hs.
  change (py "=" ++ s) with (61%N :: s) in Hs.
  exfalso. apply Hne. exact (first_separator_unique _ _ _ _ _ Hother Hname Hs).
Qed.

(** X14: A line [OTHER=value] of [.env] is never taken for the key [NAME] when
    the names differ, also when one name is a prefix of the other: with
    only such lines in the file, read to its end, and nothing in the
    environment, the key is unconfigured. *)
Theorem other_variables_not_taken (name : pystr) (lines : list pystr) (w : World) :
  ~ In 61%N name ->
  default [] (environ w !! name) = [] ->
  dotenv w = Ok (readable lines) ->
  Forall (fun l => exists other v,
            l = other ++ py "=" ++ v /\ ~ In 61%N other /\ other <> name) lines ->
  load_key name w = ([EnvironGet name; Open (py ".env")], Ok []).
Proof.
  intros Hname Henv Hf Hlines.
  apply (load_key_file_none name (readable lines) w Henv Hf); [|reflexivity].
  cbn [file_lines readable].
  eapply Forall_impl; [exact Hlines|].
  intros l (other & v & -> & Hother & Hne).
  apply startswith_other_name; assumption.
Qed.

Lemma other_variables_not_taken_witness :
  ~ In 61%N SARVAM_NAME
  /\ load_key SARVAM_NAME (world_file_elevenlabs timing_out)
     = ([EnvironGet SARVAM_NAME; Open (py ".env")], Ok []).
Proof.
  assert (Hname : ~ In 61%N SARVAM_NAME) by (vm_compute; intuition discriminate).
  assert (Hother : ~ In 61%N ELEVENLABS_NAME) by (vm_compute; intuition discriminate).
  split; [exact Hname|].
  apply (other_variables_not_taken SARVAM_NAME
           [ py "VITE_ELEVENLABS_API_KEY=   " ++ [10%N];
             py "VITE_ELEVENLABS_API_KEY=el-second" ++ [10%N] ]
           (world_file_elevenlabs timing_out) Hname).
  - reflexivity.
  - reflexivity.
  - constructor; [|constructor; [|constructor]].
    + exists ELEVENLABS_NAME, (py "   " ++ [10%N]).
      split; [reflexivity|]. split; [exact Hother|discriminate].
    + exists ELEVENLABS_NAME, (py "el-second" ++ [10%N]).
      split; [reflexivity|]. split; [exact Hother|discriminate].
Defined.

(** ** A text that is not a string, on [POST /tts/sarvam] *)

(** X15: [POST /tts/sarvam], with its key configured, treats a truthy [text]
    that is not a string like [POST /tts] does: a number, a boolean or an
    object makes the slice raise inside the [try] (a [TypeError]; for an
    object, from Python 3.12 on, a [KeyError]), answered with 500 and the
    message of the exception, without an upstream call; a non-empty list is
    sliced and its first 500 items are sent upstream. *)
Theorem sarvam_non_string_text (b64decode : pyvalue -> Result bytes)
    (d : gmap pystr pyvalue) (w : World) (v : pyvalue) (t0 : list event) (key : pystr) :
  load_key SARVAM_NAME w = (t0, Ok key) -> key <> [] ->
  d !! py "text" = Some v -> truthy v = true -> (forall s, v <> PStr s) ->
  ((forall l, v <> PList l) ->
     exists e, py_slice_to (slices_hash w) v 500 = Raise e
               /\ sarvam_tts b64decode (json_request d) w
                  = (t0, Ok (jsonify (error_dict (exn_str e)) 500))
               /\ ((forall dv, v <> PDict dv) ->
                   e = TypeError ("'" ++ type_name v ++ "' object is not subscriptable"))
               /\ (forall dv, v = PDict dv -> slices_hash w = false ->
                   e = TypeError "unhashable type: 'slice'")
               /\ (forall dv, v = PDict dv -> slices_hash w = true ->
                   e = Exn "KeyError" (py "slice(None, 500, None)")))
  /\ (forall l, v = PList l ->
     fst (sarvam_tts b64decode (json_request d) w)
     = t0 ++ [Post (sarvam_call key (language_of d) (PList (firstn 500 l)))]).
Proof.
  intros Hload Hkey Hd Hv Hstr.
  pose proof (sarvam_tts_run b64decode d w t0 key Hload) as Hrun. cbv zeta in Hrun.
  fold (language_of d) in Hrun. rewrite Hd in Hrun.
  change (default (PStr []) (Some v)) with v in Hrun.
  apply truthy_str_true in Hkey. rewrite Hkey, Hv in Hrun. cbn [negb] in Hrun.
  fold (json_request d) in Hrun. rewrite Hrun. clear Hrun. split.
  - intros Hlist.
    destruct v as [|b|n|m e|s|l|dv]; cbn [py_slice_to type_name];
      try (eexists; split; [reflexivity|]; split; [reflexivity|];
           split; [reflexivity|]; split; intros dv Hdv; discriminate Hdv).
    + exfalso. apply (Hstr s). reflexivity.
    + exfalso. apply (Hlist l). reflexivity.
    + destruct (slices_hash w); eexists; (split; [reflexivity|]);
        (split; [reflexivity|]);
        (split; [intros Hnd; exfalso; apply (Hnd dv); reflexivity|]);
        split; intros dv' _ Hh; try discriminate Hh; reflexivity.
  - intros l ->. reflexivity.
Qed.

Lemma sarvam_non_string_text_witness :
  load_key SARVAM_NAME (world_env timing_out) = ([EnvironGet SARVAM_NAME], Ok (py "sv-key"))
  /\ sarvam_tts b64decode_rejecting
       (json_request {[ py "text" := PDict {[ py "a" := PInt 1 ]} ]})
       (before_python_3_12 (world_env timing_out))
     = ([EnvironGet SARVAM_NAME],
        Ok (jsonify (error_dict (py "unhashable type: 'slice'")) 500))
  /\ sarvam_tts b64decode_rejecting
       (json_request {[ py "text" := PDict {[ py "a" := PInt 1 ]} ]})
       (world_env timing_out)
     = ([EnvironGet SARVAM_NAME],
        Ok (jsonify (error_dict (py "slice(None, 500, None)")) 500)).
Proof.
  assert (Hload : load_key SARVAM_NAME (world_env timing_out)
                  = ([EnvironGet SARVAM_NAME], Ok (py "sv-key")))
    by (vm_compute; reflexivity).
  assert (Hload' : load_key SARVAM_NAME (before_python_3_12 (world_env timing_out))
                   = ([EnvironGet SARVAM_NAME], Ok (py "sv-key")))
    by (vm_compute; reflexivity).
  assert (Hkey : py "sv-key" <> []) by discriminate.
  assert (Hd : ({[ py "text" := PDict {[ py "a" := PInt 1 ]} ]} : gmap pystr pyvalue)
                 !! py "text" = Some (PDict {[ py "a" := PInt 1 ]}))
    by (vm_compute; reflexivity).
  assert (Hv : truthy (PDict {[ py "a" := PInt 1 ]}) = true) by (vm_compute; reflexivity).
  assert (Hstr : forall s, PDict {[ py "a" := PInt 1 ]} <> PStr s)
    by (intros s Hs; discriminate Hs).
  assert (Hlist : forall l, PDict {[ py "a" := PInt 1 ]} <> PList l)
    by (intros l Hl; discriminate Hl).
  split; [exact Hload|]. split.
  - destruct (sarvam_non_string_text b64decode_rejecting _ _ _ _ _
                Hload' Hkey Hd Hv Hstr) as [Hraise _].
    destruct (Hraise Hlist) as (e & _ & Hrun & _ & Hold & _).
    rewrite Hrun, (Hold _ eq_refl eq_refl). reflexivity.
  - destruct (sarvam_non_string_text b64decode_rejecting _ _ _ _ _
                Hload Hkey Hd Hv Hstr) as [Hraise _].
    destruct (Hraise Hlist) as (e & _ & Hrun & _ & _ & Hnew).
    rewrite Hrun, (Hnew _ eq_refl eq_refl). reflexivity.
Defined.

(** X16: [sarvam_tts] raises exactly when loading its key does, or when the key
    is configured and the body cannot be decoded or is not an object. *)
Theorem sarvam_tts_raises_iff (b64decode : pyvalue -> Result bytes)
    (request : Request) (w : World) :
  (exists e, snd (sarvam_tts b64decode request w) = Raise e)
  <-> (exists e, snd (load_key SARVAM_NAME w) = Raise e)
      \/ (exists key, snd (load_key SARVAM_NAME w) = Ok key /\ key <> []
                      /\ ((exists e, request_json request = Raise e)
                          \/ exists v, request_json request = Ok v
                                       /\ forall d, v <> PDict d)).
Proof.
  unfold SARVAM_NAME.
  destruct (load_key (py "VITE_SARVAM_API_KEY") w) as [t0 [key|e]] eqn:Hload; cbn [snd].
  2:{ rewrite (sarvam_tts_load_raises _ _ _ _ _ Hload). cbn [snd]. split; eauto. }
  destruct (decide (key = [])) as [->|Hkey].
  { rewrite (sarvam_tts_unconfigured _ _ _ _ Hload). cbn [snd]. split.
    - intros [e He]. discriminate He.
    - intros [[e He]|(key & Hk & Hne & _)]; [discriminate He|].
      injection Hk as <-. contradiction. }
  destruct request as [[v|e]].
  2:{ rewrite (sarvam_tts_bad_body _ _ _ _ _ Hload Hkey). cbn [snd request_json].
      split; [|eauto]. intros _. right. exists key. eauto. }
  destruct v as [| | | | | |d];
    try (rewrite (sarvam_tts_not_dict _ _ _ _ _ Hload Hkey) by (intros; discriminate);
         cbn [snd request_json]; split; [|eauto]; intros _; right; exists key;
         split; [reflexivity|]; split; [exact Hkey|]; right; eexists;
         split; [reflexivity|]; intros; discriminate).
  cbn [request_json]. split.
  - intros [e He]. exfalso.
    rewrite (sarvam_tts_run _ _ _ _ _ Hload) in He. cbv zeta in He.
    destruct (negb (truthy (PStr key))); [discriminate He|].
    destruct (negb (truthy _)); [discriminate He|].
    destruct (py_slice_to _ _ _); discriminate He.
  - intros [[e He]|(key' & _ & _ & [[e He]|(v & Hv & Hnd)])]; try discriminate.
    injection Hv as <-. exfalso. apply (Hnd d). reflexivity.
Qed.
